(** * Verification of the wine-evaluation pipeline (evals_and_disillation)

    A shallow embedding of the TypeScript sources
      - [step3_analyze_results.ts]  (accuracy analysis of prediction files),
      - [step2_get_output.ts]       (prediction requests, batching),
      - [run_evaluation.ts]         (command-line entry point),
    followed by the properties established about them.

    Conventions of the embedding.
      - A JavaScript value that reaches the code from the CSV parser is a
        [JsValue]; the representation of IEEE numbers and of [Date] objects
        is left to a [JsHost] instance, since the code only tests them for
        truthiness and converts them to strings.
      - A function that may throw returns a [Completion]: [Return v] or
        [Throw e].  Every [throw] site of the sources has its own [Error]
        constructor; [message] gives the text of the JavaScript error.
      - Remote calls, timers and the console are recorded in a trace of
        [Event]s, in program order.
      - [accuracy] is a JavaScript number obtained by one division of two
        counts; it is modelled by the exact rational quotient. *)

From Stdlib Require Import ZArith QArith Qround List Sorted Lia.
From stdpp Require Import base option strings pretty gmap.
From Equations Require Import Equations.
Import ListNotations.

Local Open Scope string_scope.
Local Open Scope list_scope.
Local Open Scope Z_scope.

(** ** JavaScript values and completions *)

(** Host primitives the sources rely on without defining them. *)
Class JsHost := {
  Number : Type;
  Date : Type;
  (** [+0], [-0] and [NaN] are the falsy numbers *)
  number_falsy : Number -> bool;
  (** [String(n)] *)
  number_toString : Number -> string;
  (** [String(d)] *)
  date_toString : Date -> string;
  (** [d.toISOString()] *)
  date_toISOString : Date -> string;
}.

Section Values.
Context `{JsHost}.

Inductive JsValue :=
| JsUndefined
| JsNull
| JsBool (b : bool)
| JsNumber (n : Number)
| JsString (s : string)
| JsDate (d : Date).

(** [typeof v] *)
Definition typeof (v : JsValue) : string :=
  match v with
  | JsUndefined => "undefined"
  | JsNull => "object"
  | JsBool _ => "boolean"
  | JsNumber _ => "number"
  | JsString _ => "string"
  | JsDate _ => "object"
  end.

(** [String(v)] *)
Definition js_String (v : JsValue) : string :=
  match v with
  | JsUndefined => "undefined"
  | JsNull => "null"
  | JsBool true => "true"
  | JsBool false => "false"
  | JsNumber n => number_toString n
  | JsString s => s
  | JsDate d => date_toString d
  end.

(** Truthiness, as tested by [if], [&&], [||] and [!]. *)
Definition truthy (v : JsValue) : bool :=
  match v with
  | JsUndefined | JsNull => false
  | JsBool b => b
  | JsNumber n => negb (number_falsy n)
  | JsString s => negb (String.eqb s "")
  | JsDate _ => true
  end.

(** [a[i]] on an array: [undefined] outside of it. *)
Definition js_index (a : list JsValue) (i : nat) : JsValue :=
  default JsUndefined (a !! i).

(** [o.k] on a plain object: [undefined] for an absent key. *)
Definition js_get (o : gmap string JsValue) (k : string) : JsValue :=
  default JsUndefined (o !! k).

End Values.

(** Errors, one constructor per [throw] or [reject] site. *)
Inductive Error :=
| ErrNoPredictions                       (* step3: calculateWineAccuracy *)
| ErrFileNotFound (path : string)        (* step3: readPredictionsFile *)
| ErrParsingFile (cause : string)
| ErrReadingFile (cause : string)
| ErrNoValidRecords (path : string)
| ErrRemote (cause : string)             (* step2: rejected by the API client *)
| ErrNoChoice                            (* step2: [choices[0]] is undefined *)
| ErrModelRefused
| ErrNoValidResponse
| ErrAllRetriesFailed
| ErrParseStream (cause : string)        (* step2: getUniqueVarieties *)
| ErrWriteFile (cause : string).         (* step3: rejected by the CSV writer *)

Definition message (e : Error) : string :=
  match e with
  | ErrNoPredictions => "No predictions to analyze"
  | ErrFileNotFound p => String.append "File not found: " p
  | ErrParsingFile c => String.append "Error parsing file: " c
  | ErrReadingFile c => String.append "Error reading file: " c
  | ErrNoValidRecords p => String.append "No valid records found in " p
  | ErrRemote c => c
  | ErrNoChoice => "Cannot read properties of undefined (reading 'message')"
  | ErrModelRefused => "Model refused to classify"
  | ErrNoValidResponse => "No valid response received"
  | ErrAllRetriesFailed => "All retries failed"
  | ErrParseStream c => c
  | ErrWriteFile c => c
  end.

Inductive Completion (A : Type) :=
| Return (a : A)
| Throw (e : Error).
Arguments Return {A} a.
Arguments Throw {A} e.

(** [a.slice(start, end)] with the clamping of ECMAScript. *)
Definition slice_bound (len k : Z) : Z :=
  if k <? 0 then Z.max (len + k) 0 else Z.min k len.

Definition slice {A} (a : list A) (start stop : Z) : list A :=
  let len := Z.of_nat (length a) in
  let from := slice_bound len start in
  let to := slice_bound len stop in
  firstn (Z.to_nat (to - from)) (skipn (Z.to_nat from) a).

(** [s.startsWith(prefix)] and [s.includes(sub)] *)
Fixpoint startsWith (s prefix : string) : bool :=
  match prefix, s with
  | EmptyString, _ => true
  | String _ _, EmptyString => false
  | String c prefix', String d s' => Ascii.eqb c d && startsWith s' prefix'
  end.

Fixpoint includes (s sub : string) : bool :=
  startsWith s sub
  || match s with
     | EmptyString => false
     | String _ rest => includes rest sub
     end.

(** [s.padStart(targetLength, fill)] for a filler of one character. *)
Definition padStart (s : string) (targetLength : nat) (fill : Ascii.ascii)
    : string :=
  String.append
    (String.string_of_list_ascii
       (repeat fill (targetLength - String.length s))) s.

(** What the code reads off [new Date()]: [getMonth()] counts from 0. *)
Record DateParts := {
  getMonth : nat;
  getDate : nat;
  getHours : nat;
  getMinutes : nat;
}.

(** [String(n)] for a count. *)
Definition natToString (n : nat) : string := pretty n.

Definition zeroDigit : Ascii.ascii := Ascii.ascii_of_nat 48.

(** The template both [analyzePredictions] and [getRunTimestamp] fill in:
    month, day, hour and minute, each padded to two digits. *)
Definition monthDayHourMinute (now : DateParts) : string :=
  String.concat "-"
    [ padStart (natToString (getMonth now + 1)) 2 zeroDigit;
      padStart (natToString (getDate now)) 2 zeroDigit;
      padStart (natToString (getHours now)) 2 zeroDigit;
      padStart (natToString (getMinutes now)) 2 zeroDigit ].

(** ** step3_analyze_results.ts *)

Module Step3.
Section Step3.
Context `{JsHost}.

Record WinePredictionRecord := {
  recordId : JsValue;
  model : string;
  prediction : string;
  timestamp : string;
  winery : string;
  variety : string;
  actual_variety : string;
}.

Record IncorrectExample := {
  ex_winery : string;
  predicted : string;
  actual : string;
}.

Record WineAnalysisResult := {
  res_model : string;
  totalPredictions : nat;
  correctPredictions : nat;
  accuracy : Q;
  incorrectExamples : list IncorrectExample;
}.

Definition isCorrect (p : WinePredictionRecord) : bool :=
  String.eqb (prediction p) (actual_variety p).

Definition mkExample (p : WinePredictionRecord) : IncorrectExample :=
  {| ex_winery := winery p; predicted := prediction p;
     actual := actual_variety p |}.

(** Body of the [for ... of] loop: the two mutable locals are the state. *)
Definition accuracyStep (st : nat * list IncorrectExample)
    (p : WinePredictionRecord) : nat * list IncorrectExample :=
  let '(correct, examples) := st in
  if isCorrect p then (S correct, examples)
  else (correct, examples ++ [mkExample p]).

Definition ratio (n d : nat) : Q :=
  (inject_Z (Z.of_nat n) / inject_Z (Z.of_nat d))%Q.

Definition calculateWineAccuracy (predictions : list WinePredictionRecord)
    : Completion WineAnalysisResult :=
  match predictions with
  | [] => Throw ErrNoPredictions
  | first :: _ =>
      let '(correct, examples) := fold_left accuracyStep predictions (0%nat, []) in
      Return {| res_model := model first;
                totalPredictions := length predictions;
                correctPredictions := correct;
                accuracy := ratio correct (length predictions);
                incorrectExamples := slice examples 0 5 |}
  end.

(** The object literal built in the ['data'] handler of
    [readPredictionsFile], before the type guard has looked at it. *)
Record MappedRecord := {
  m_recordId : JsValue;
  m_model : JsValue;
  m_prediction : JsValue;
  m_timestamp : JsValue;
  m_winery : JsValue;
  m_variety : JsValue;
  m_actual_variety : JsValue;
}.

(** The argument is always an object literal here, so the two leading
    conjuncts [typeof record === 'object' && record !== null] hold. *)
Definition validateWinePredictionRecord (record : MappedRecord) : bool :=
  let isValid :=
    (String.eqb (typeof (m_recordId record)) "number"
       || String.eqb (typeof (m_recordId record)) "string")
    && String.eqb (typeof (m_model record)) "string"
    && String.eqb (typeof (m_prediction record)) "string"
    && String.eqb (typeof (m_winery record)) "string"
    && String.eqb (typeof (m_variety record)) "string"
    && String.eqb (typeof (m_actual_variety record)) "string" in
  isValid.

Definition mapRecord (record : list JsValue) : MappedRecord :=
  let timestamp :=
    match js_index record 3 with
    | JsDate d => date_toISOString d
    | v => js_String v
    end in
  {| m_recordId := js_index record 0;
     m_model := js_index record 1;
     m_prediction := JsString (js_String (js_index record 2));
     m_timestamp := JsString timestamp;
     m_winery := JsString (js_String (js_index record 4));
     m_variety := JsString (js_String (js_index record 5));
     m_actual_variety := JsString (js_String (js_index record 6)) |}.

(** The static view a validated object is given by the type guard. *)
Definition narrow (r : MappedRecord) : option WinePredictionRecord :=
  match m_model r, m_prediction r, m_timestamp r, m_winery r, m_variety r,
        m_actual_variety r with
  | JsString mo, JsString pr, JsString ts, JsString wi, JsString va, JsString av =>
      Some {| recordId := m_recordId r; model := mo; prediction := pr;
              timestamp := ts; winery := wi; variety := va;
              actual_variety := av |}
  | _, _, _, _, _, _ => None
  end.

(** What the piped streams emit before ['end']. *)
Inductive StreamEvent :=
| SData (record : list JsValue)
| SParseError (cause : string)
| SReadError (cause : string).

(** State of the promise executor: the array being filled and the
    settlement of the promise, which only its first [resolve] or [reject]
    decides. *)
Record ReaderState := {
  validRecords : list MappedRecord;
  settled : option (Completion (list MappedRecord));
}.

Definition settle (r : Completion (list MappedRecord)) (st : ReaderState)
    : ReaderState :=
  match settled st with
  | Some _ => st
  | None => {| validRecords := validRecords st; settled := Some r |}
  end.

Definition onEvent (st : ReaderState) (ev : StreamEvent) : ReaderState :=
  match ev with
  | SData record =>
      let mappedRecord := mapRecord record in
      if validateWinePredictionRecord mappedRecord
      then {| validRecords := validRecords st ++ [mappedRecord];
              settled := settled st |}
      else st
  | SParseError cause => settle (Throw (ErrParsingFile cause)) st
  | SReadError cause => settle (Throw (ErrReadingFile cause)) st
  end.

Definition onEnd (filePath : string) (st : ReaderState)
    : Completion (list MappedRecord) :=
  match settled st with
  | Some r => r
  | None =>
      if Nat.eqb (length (validRecords st)) 0
      then Throw (ErrNoValidRecords filePath)
      else Return (validRecords st)
  end.

(** [fs path] is [None] when [fs.existsSync(path)] is false, and otherwise
    what reading and parsing the file emits. *)
Definition readPredictionsFile (fs : string -> option (list StreamEvent))
    (filePath : string) : Completion (list MappedRecord) :=
  match fs filePath with
  | None => Throw (ErrFileNotFound filePath)
  | Some events =>
      onEnd filePath
        (fold_left onEvent events {| validRecords := []; settled := None |})
  end.

(** The records handed to [calculateWineAccuracy] are the validated
    objects, seen through their static type. *)
Definition asPredictions (records : list MappedRecord)
    : list WinePredictionRecord :=
  omap narrow records.

Record SummaryRow := {
  row_model : string;
  row_accuracy : Q;
  row_totalPredictions : nat;
  row_correctPredictions : nat;
}.

Definition summaryRow (r : WineAnalysisResult) : SummaryRow :=
  {| row_model := res_model r;
     row_accuracy := accuracy r;
     row_totalPredictions := totalPredictions r;
     row_correctPredictions := correctPredictions r |}.

(** What an analysis that has read both files prints and then asks the
    writer of the summary to write: the warning about unequal sizes, if
    printed, the two results, the difference printed, the examples
    printed, and the path and the rows given to the writer. *)
Record AnalysisReport := {
  sizeWarning : option (nat * nat);
  baseModelResults : WineAnalysisResult;
  comparisonModelResults : WineAnalysisResult;
  accuracyDiff : Q;
  printedExamples : list IncorrectExample;
  summaryPath : string;
  summaryRows : list SummaryRow;
}.

(** [Promise.all] of the two reads: it rejects with the reason of the
    read that rejects first, which the code does not decide when both
    do; [baseRejectsFirst] says which one it is then. *)
Definition readBoth (fs : string -> option (list StreamEvent))
    (baseRejectsFirst : bool) (baseModelFile comparisonModelFile : string)
    : Completion (list MappedRecord * list MappedRecord) :=
  match readPredictionsFile fs baseModelFile,
        readPredictionsFile fs comparisonModelFile with
  | Return b, Return c => Return (b, c)
  | Throw e, Return _ => Throw e
  | Return _, Throw e => Throw e
  | Throw eb, Throw ec => Throw (if baseRejectsFirst then eb else ec)
  end.

(** [analysisWriter path rows] is the settlement of
    [createObjectCsvWriter({ path, header }).writeRecords(rows)], which
    the code awaits inside its [try] block: a rejection of the writer is
    rethrown like any other error.  The result is the report, when the
    analysis came to print it, and the settlement of the promise. *)
Definition analyzePredictions (fs : string -> option (list StreamEvent))
    (analysisWriter : string -> list SummaryRow -> Completion unit)
    (baseRejectsFirst : bool) (now : DateParts)
    (baseModelFile comparisonModelFile : string)
    : option AnalysisReport * Completion unit :=
  match readBoth fs baseRejectsFirst baseModelFile comparisonModelFile with
  | Throw error => (None, Throw error)
  | Return (baseModelPredictions, comparisonModelPredictions) =>
      let warning :=
        if Nat.eqb (length baseModelPredictions)
                   (length comparisonModelPredictions)
        then None
        else Some (length baseModelPredictions,
                   length comparisonModelPredictions) in
      match calculateWineAccuracy (asPredictions baseModelPredictions) with
      | Throw error => (None, Throw error)
      | Return baseResults =>
          match calculateWineAccuracy
                  (asPredictions comparisonModelPredictions) with
          | Throw error => (None, Throw error)
          | Return comparisonResults =>
              let timestamp := monthDayHourMinute now in
              let report :=
                {| sizeWarning := warning;
                   baseModelResults := baseResults;
                   comparisonModelResults := comparisonResults;
                   accuracyDiff :=
                     (accuracy baseResults - accuracy comparisonResults)%Q;
                   printedExamples := incorrectExamples comparisonResults;
                   summaryPath :=
                     String.concat EmptyString
                       ["./data/analysis_results_"; timestamp; ".csv"];
                   summaryRows :=
                     [summaryRow baseResults; summaryRow comparisonResults] |}
              in
              match analysisWriter (summaryPath report) (summaryRows report)
              with
              | Throw error => (Some report, Throw error)
              | Return _ => (Some report, Return tt)
              end
          end
      end
  end.

End Step3.
End Step3.

(** ** step2_get_output.ts *)

Module Step2.
Section Step2.
Context `{JsHost}.

(** Fields hold what the parser delivered ([dynamicTyping] is on), so a
    value typed [string] or [number] by the interface may be any [JsValue]. *)
Record WineRecord := {
  winery : JsValue;
  province : JsValue;
  country : JsValue;
  region_1 : JsValue;
  description : JsValue;
  taster_name : JsValue;
  points : JsValue;
  price : JsValue;
  variety : JsValue;
}.

Record PredictionResult := {
  pr_recordId : Z;
  pr_model : string;
  pr_prediction : string;
  pr_timestamp : string;
  pr_winery : JsValue;
  pr_variety : JsValue;
  pr_actual_variety : JsValue;
}.

Definition nl : string := String (Ascii.ascii_of_nat 10) EmptyString.
Definition dquote : string := String (Ascii.ascii_of_nat 34) EmptyString.

Definition generatePrompt (record : WineRecord) (varieties : list string)
    : string :=
  let varietyList := String.concat ", " varieties in
  String.concat EmptyString
    [ nl;
      "Based on this wine review, guess the grape variety:"; nl;
      "This wine is produced by "; js_String (winery record);
      " in the "; js_String (province record);
      " region of "; js_String (country record); "."; nl;
      "It was grown in "; js_String (region_1 record);
      ". It is described as: "; dquote; js_String (description record);
      dquote; "."; nl;
      "The wine has been reviewed by "; js_String (taster_name record);
      " and received "; js_String (points record); " points."; nl;
      "The price is "; js_String (price record); "."; nl;
      nl;
      "Here is a list of possible grape varieties to choose from: ";
      varietyList; "."; nl;
      nl;
      "What is the likely grape variety? Answer only with the grape variety name or blend from the list.";
      nl ].

(** The response format built by [main] with [zodResponseFormat]. *)
Record ResponseFormat := {
  schema_name : string;
  allowed_varieties : list string;
}.

(** Argument of [openai.beta.chat.completions.parse]. *)
Record Request := {
  req_model : string;
  req_system : string;
  req_user : string;
  req_response_format : ResponseFormat;
  req_store : bool;
  req_metadata : option (string * string);
}.

Record ParsedResponse := { parsed_variety : string }.

(** [completion.choices[k].message]: [parsed] is an object or [null],
    [refusal] a string or [null]. *)
Record Message := {
  parsed : option ParsedResponse;
  refusal : option string;
}.

(** Outcome of awaiting one remote call. *)
Inductive CallResult :=
| Rejected (cause : string)
| Completed (choices : list Message).

Inductive Event :=
| EvCall (req : Request)
| EvLogParsed (p : ParsedResponse)
| EvSleep (ms : Z)
| EvErrorProcessing (recordId : Z) (e : Error).

Definition systemPrompt : string :=
  "You're a sommelier expert and you know everything about wine. You answer precisely with the name of the variety/blend.".

Definition buildRequest (model prompt : string) (responseFormat : ResponseFormat)
    (timestamp : string) (storeCompletions : bool) : Request :=
  let isBaseModel := String.eqb model "gpt-4o" in
  let shouldStore := isBaseModel && storeCompletions in
  {| req_model := model;
     req_system := systemPrompt;
     req_user := prompt;
     req_response_format := responseFormat;
     req_store := shouldStore;
     req_metadata :=
       if shouldStore then Some ("wine_classification", timestamp) else None |}.

Definition refusal_truthy (m : Message) : bool :=
  match refusal m with
  | Some s => negb (String.eqb s EmptyString)
  | None => false
  end.

(** The [try] block of one attempt, after the remote call has settled. *)
Definition tryBody (r : CallResult) : list Event * Completion string :=
  match r with
  | Rejected cause => ([], Throw (ErrRemote cause))
  | Completed [] => ([], Throw ErrNoChoice)
  | Completed (message :: _) =>
      match parsed message with
      | Some p => ([EvLogParsed p], Return (parsed_variety p))
      | None =>
          if refusal_truthy message then ([], Throw ErrModelRefused)
          else ([], Throw ErrNoValidResponse)
      end
  end.

(** [remote k] is the outcome of the call issued by attempt [k]. *)
Equations? attemptLoop (remote : Z -> CallResult) (req : Request)
    (retries attempt : Z) : list Event * Completion string
    by wf (Z.to_nat (retries + 1 - attempt)) lt :=
  attemptLoop remote req retries attempt with Equations.Prop.Logic.inspect (attempt <=? retries) := {
    | exist _ false _ => ([], Throw ErrAllRetriesFailed)
    | exist _ true Hle =>
        match tryBody (remote attempt) with
        | (log, Return v) => (EvCall req :: log, Return v)
        | (log, Throw error) =>
            if attempt =? retries then (EvCall req :: log, Throw error)
            else
              let delay := 2 ^ attempt * 1000 in
              let '(rest, outcome) :=
                attemptLoop remote req retries (attempt + 1) in
              (EvCall req :: log ++ EvSleep delay :: rest, outcome)
        end }.
Proof. apply Z.leb_le in Hle. lia. Qed.

Definition getPrediction (remote : Z -> CallResult) (model prompt : string)
    (responseFormat : ResponseFormat) (timestamp : string)
    (storeCompletions : option bool) (retries : option Z)
    : list Event * Completion string :=
  attemptLoop remote
    (buildRequest model prompt responseFormat timestamp
       (default true storeCompletions))
    (default 3 retries) 1.

(** One task handed to [limit]: the [try]/[catch] around a record.
    [limit] only decides when the task starts, not what it returns. *)
Definition processRecord (remote : Z -> CallResult) (now : string)
    (varieties : list string) (startIdx : Z) (model timestamp : string)
    (storeCompletions : bool) (responseFormat : ResponseFormat)
    (index : nat) (record : WineRecord)
    : list Event * option PredictionResult :=
  let prompt := generatePrompt record varieties in
  match getPrediction remote model prompt responseFormat timestamp
          (Some storeCompletions) None with
  | (trace, Return prediction) =>
      (trace,
       Some {| pr_recordId := startIdx + Z.of_nat index;
               pr_model := model;
               pr_prediction := prediction;
               pr_timestamp := now;
               pr_winery := winery record;
               pr_variety := variety record;
               pr_actual_variety := variety record |})
  | (trace, Throw error) =>
      (trace ++ [EvErrorProcessing (startIdx + Z.of_nat index) error], None)
  end.

(** What a batch meets in the outside world: the outcome of
    [getUniqueVarieties(trainDataPath)], the remote outcomes of the calls
    made for the record at each index, and the clock read when that record
    succeeds.  The outcome of [getUniqueVarieties] is a settlement of its
    promise: the varieties read, or the error of the parse stream, the
    only one it listens to.  An error of the file stream itself (a
    missing or unreadable file) has no listener: the promise then never
    settles and the process ends on the uncaught error, so that such a
    run has no batch outcome and no environment (see [batchEnvOf]). *)
Record BatchEnv := {
  varietiesOutcome : Completion (list string);
  remoteFor : nat -> Z -> CallResult;
  nowFor : nat -> string;
}.

(** The array [await Promise.all(promises)] yields: one entry per record,
    at the record's index, whatever the order of completion. *)
Definition batchOutcomes (env : BatchEnv) (varieties : list string)
    (records : list WineRecord) (startIdx : Z) (model timestamp : string)
    (storeCompletions : bool) (responseFormat : ResponseFormat)
    : list (list Event * option PredictionResult) :=
  imap (fun index record =>
          processRecord (remoteFor env index) (nowFor env index) varieties
            startIdx model timestamp storeCompletions responseFormat
            index record)
       records.

(** [a.filter(result => result !== null)] *)
Definition filterNotNull {A} (a : list (option A)) : list A :=
  omap id a.

(** Returns the trace of each task next to the result of the promise. *)
Definition processBatch (env : BatchEnv) (records : list WineRecord)
    (startIdx : Z) (model timestamp : string) (storeCompletions : bool)
    (responseFormat : ResponseFormat)
    : list (list Event) * Completion (list PredictionResult) :=
  match varietiesOutcome env with
  | Throw e => ([], Throw e)
  | Return varieties =>
      let batchResults :=
        batchOutcomes env varieties records startIdx model timestamp
          storeCompletions responseFormat in
      (map fst batchResults, Return (filterNotNull (map snd batchResults)))
  end.

(** *** main: reading the dataset *)

(** The ['data'] handler of [main]; rows are objects keyed by the header. *)
Definition onData (validRecords : list WineRecord)
    (record : gmap string JsValue) : list WineRecord :=
  if truthy (js_get record "winery") && truthy (js_get record "variety")
     && truthy (js_get record "description")
  then validRecords ++
       [ {| winery := js_get record "winery";
            province := js_get record "province";
            country := js_get record "country";
            region_1 := js_get record "region_1";
            description := js_get record "description";
            taster_name := js_get record "taster_name";
            points := js_get record "points";
            price := js_get record "price";
            variety := js_get record "variety" |} ]
  else validRecords.

Definition collectValidRecords (rows : list (gmap string JsValue))
    : list WineRecord :=
  fold_left onData rows [].

Definition sampleRecords (records : list WineRecord) (numSamples : Z)
    : list WineRecord :=
  if numSamples =? -1
  then slice records 0 (Z.of_nat (length records))
  else slice records 0 numSamples.

(** *** main: the batch loop *)

Definition REQUESTS_PER_MINUTE : Z := 200.
Definition BATCH_SIZE : Z :=
  Qfloor (inject_Z REQUESTS_PER_MINUTE / inject_Z 4).

(** What one iteration of the loop computes before it calls
    [processBatch], and whether it pauses afterwards. *)
Record BatchRun := {
  batchRecords : list WineRecord;
  batchStart : Z;
  batchNumber : Z;
  totalBatches : Z;
  pauseAfter : bool;
}.

Equations? batchLoop (sampledRecords : list WineRecord) (i : Z)
    : list BatchRun
    by wf (Z.to_nat (Z.of_nat (length sampledRecords) - i)) lt :=
  batchLoop sampledRecords i
    with Equations.Prop.Logic.inspect (i <? Z.of_nat (length sampledRecords)) := {
    | exist _ false _ => []
    | exist _ true Hlt =>
        {| batchRecords := slice sampledRecords i (i + BATCH_SIZE);
           batchStart := i;
           batchNumber := Qfloor (inject_Z i / inject_Z BATCH_SIZE) + 1;
           totalBatches :=
             Qceiling (inject_Z (Z.of_nat (length sampledRecords))
                       / inject_Z BATCH_SIZE);
           pauseAfter := i + BATCH_SIZE <? Z.of_nat (length sampledRecords) |}
        :: batchLoop sampledRecords (i + BATCH_SIZE) }.
Proof.
  apply Z.ltb_lt in Hlt.
  assert (BATCH_SIZE = 50) as -> by reflexivity. lia.
Qed.

(** The batches [main] processes for each of the two models. *)
Definition mainBatches (rows : list (gmap string JsValue)) (numSamples : Z)
    : list BatchRun :=
  batchLoop (sampleRecords (collectValidRecords rows) numSamples) 0.

(** *** getUniqueVarieties *)

Definition trainDataPath : string := "./data/winemag_train_dataset.csv".
Definition validationDataPath : string :=
  "./data/winemag_validation_dataset.csv".

(** What the parse stream emits before ['end']; with [header: true] and
    no dynamic typing a row maps column names to strings. *)
Inductive VarietyEvent :=
| VData (record : gmap string string)
| VError (cause : string).

Inductive VarietiesOutcome :=
| VarietiesFailed (cause : string)
| VarietiesRead (varieties : list string).

(** [set.add(v)] on a [Set], kept in insertion order. *)
Definition setAdd (v : string) (set : list string) : list string :=
  if existsb (String.eqb v) set then set else set ++ [v].

Section Varieties.
(** [String.prototype.trim] *)
Variable trim : string -> string.

Definition onVarietyEvent (st : list string * option VarietiesOutcome)
    (ev : VarietyEvent) : list string * option VarietiesOutcome :=
  match ev with
  | VData record =>
      match record !! "variety" with
      | Some v =>
          if negb (String.eqb v EmptyString)
          then (setAdd (trim v) (fst st), snd st)
          else st
      | None => st
      end
  | VError cause =>
      (fst st,
       match snd st with
       | Some r => Some r
       | None => Some (VarietiesFailed cause)
       end)
  end.

Definition getUniqueVarieties (events : list VarietyEvent)
    : VarietiesOutcome :=
  let st := fold_left onVarietyEvent events ([], None) in
  match snd st with
  | Some r => r
  | None => VarietiesRead (fst st)
  end.

End Varieties.

(** What [await getUniqueVarieties(...)] hands to its caller. *)
Definition awaitVarieties (outcome : VarietiesOutcome)
    : Completion (list string) :=
  match outcome with
  | VarietiesFailed cause => Throw (ErrParseStream cause)
  | VarietiesRead varieties => Return varieties
  end.

(** How the read of the varieties ends for a batch: the promise of
    [getUniqueVarieties] settles, or the file stream emits an error.
    The code listens to the parse stream only, so that in the second
    case the promise stays pending and the process ends on the uncaught
    error. *)
Inductive VarietiesRun :=
| VarietiesSettle (outcome : VarietiesOutcome)
| FileStreamError (cause : string).

(** A batch has an environment in the runs in which the promise settles,
    and none in the others. *)
Definition batchEnvOf (run : VarietiesRun)
    (remoteFor : nat -> Z -> CallResult) (nowFor : nat -> string)
    : option BatchEnv :=
  match run with
  | VarietiesSettle outcome =>
      Some {| varietiesOutcome := awaitVarieties outcome;
              remoteFor := remoteFor;
              nowFor := nowFor |}
  | FileStreamError _ => None
  end.

(** *** Saving results *)

Definition getDatasetType (datasetPath : string) : string :=
  if includes datasetPath "train" then "train" else "validation".

Record CsvWriter := {
  csv_path : string;
  csv_header : list (string * string);
  csv_append : bool;
}.

Definition createCsvWriter (model timestamp datasetType : string)
    : CsvWriter :=
  {| csv_path :=
       String.concat EmptyString
         ["./data/predictions_"; model; "_"; datasetType; "_"; timestamp;
          ".csv"];
     csv_header :=
       [ ("recordId", "Record ID"); ("model", "Model");
         ("prediction", "Prediction"); ("timestamp", "Timestamp");
         ("winery", "Winery"); ("variety", "Original Variety");
         ("actual_variety", "Actual Variety") ];
     csv_append := true |}.

(** [csvWriter.writeRecords(records)] on the data rows of the files:
    appending adds the rows at the end of the file, created if absent;
    otherwise the file is written anew. *)
Definition writeRecords (w : CsvWriter) (records : list PredictionResult)
    (disk : gmap string (list PredictionResult))
    : gmap string (list PredictionResult) :=
  if csv_append w
  then <[csv_path w := default [] (disk !! csv_path w) ++ records]> disk
  else <[csv_path w := records]> disk.

Definition saveResults (results : list PredictionResult)
    (model timestamp datasetPath : string)
    (disk : gmap string (list PredictionResult))
    : gmap string (list PredictionResult) :=
  if Nat.eqb (length results) 0 then disk
  else
    let datasetType := getDatasetType datasetPath in
    let csvWriter := createCsvWriter model timestamp datasetType in
    writeRecords csvWriter results disk.

(** *** main: processing the sampled records *)

Inductive MainEvent :=
| MBatch (model : string) (batchNumber : Z) (traces : list (list Event))
| MPause (ms : Z).

Record RunState := {
  disk : gmap string (list PredictionResult);
  totalProcessed : nat;
  mainLog : list MainEvent;
}.

(** The iterations of the batch loop for one model; [envFor i] is what
    the batch that starts at index [i] meets. *)
Fixpoint runBatches (envFor : Z -> BatchEnv) (model timestamp : string)
    (storeCompletions : bool) (responseFormat : ResponseFormat)
    (datasetPath : string) (batches : list BatchRun) (st : RunState)
    : RunState * Completion unit :=
  match batches with
  | [] => (st, Return tt)
  | b :: rest =>
      match processBatch (envFor (batchStart b)) (batchRecords b)
              (batchStart b) model timestamp storeCompletions
              responseFormat with
      | (traces, Throw error) =>
          ({| disk := disk st;
              totalProcessed := totalProcessed st;
              mainLog := mainLog st ++ [MBatch model (batchNumber b) traces] |},
           Throw error)
      | (traces, Return batchResults) =>
          runBatches envFor model timestamp storeCompletions responseFormat
            datasetPath rest
            {| disk := saveResults batchResults model timestamp datasetPath
                         (disk st);
               totalProcessed :=
                 (totalProcessed st + length batchResults)%nat;
               mainLog :=
                 mainLog st ++ MBatch model (batchNumber b) traces
                   :: (if pauseAfter b then [MPause 30000] else []) |}
      end
  end.


End Step2.
End Step2.

(** ** run_evaluation.ts *)

Module RunEvaluation.

Record EvaluationConfig := {
  comparisonModel : string;
  numSamples : Z;
  datasets : list string;
}.

(** Lines written with [console.error] by the command-line handler. *)
Inductive ErrorLine :=
| PleaseProvideModel
| ErrorDuringEvaluation (e : Error).

(** How the process ends: what it wrote to the error console and the code
    given to [process.exit], if it was called at all. *)
Record ProcessResult := {
  stderr : list ErrorLine;
  exitCode : option Z;
}.

(** [s.split(sep)] for a separator of one character. *)
Fixpoint split (sep : Ascii.ascii) (s : string) : list string :=
  match s with
  | EmptyString => [EmptyString]
  | String c rest =>
      if Ascii.eqb c sep then EmptyString :: split sep rest
      else match split sep rest with
           | [] => [String c EmptyString]
           | w :: ws => String c w :: ws
           end
  end.

(** [v || d] for [v] a string or [undefined]. *)
Definition orDefault (v : option string) (d : string) : string :=
  match v with
  | Some s => if String.eqb s EmptyString then d else s
  | None => d
  end.

(** [getRunTimestamp], given what [new Date()] reads. *)
Definition getRunTimestamp (now : DateParts) : string :=
  monthDayHourMinute now.

Record AnalysisFiles := {
  baseModelFile : string;
  comparisonModelFile : string;
}.

(** Arguments of a call of [runPredictions]. *)
Record PredictionsCall := {
  call_datasetPath : string;
  call_comparisonModel : string;
  call_storeCompletions : bool;
  call_numSamples : Z;
  call_timestamp : string;
}.

Inductive EvaluationStep :=
| RunPredictions (call : PredictionsCall)
| AnalyzePredictions (files : AnalysisFiles).

Section RunEvaluation.
(** The two imported steps, acting on the outside world [World]. *)
Variable World : Type.
Variable runPredictions : PredictionsCall -> World -> World * Completion unit.
Variable analyzePredictions : AnalysisFiles -> World -> World * Completion unit.

Definition predictionsCallFor (comparisonModel : string)
    (storeCompletions : bool) (numSamples : Z) (timestamp dataset : string)
    : PredictionsCall :=
  let datasetPath :=
    if String.eqb dataset "train" then Step2.trainDataPath
    else Step2.validationDataPath in
  {| call_datasetPath := datasetPath;
     call_comparisonModel := comparisonModel;
     call_storeCompletions := storeCompletions;
     call_numSamples := numSamples;
     call_timestamp := timestamp |}.

Definition analysisFilesFor (comparisonModel timestamp dataset : string)
    : AnalysisFiles :=
  {| baseModelFile :=
       String.concat EmptyString
         ["./data/predictions_gpt-4o_"; dataset; "_"; timestamp; ".csv"];
     comparisonModelFile :=
       String.concat EmptyString
         ["./data/predictions_"; comparisonModel; "_"; dataset; "_";
          timestamp; ".csv"] |}.

(** The [for ... of] loop over the datasets; the first step that fails
    ends the evaluation. *)
Fixpoint evaluateDatasets (comparisonModel : string)
    (storeCompletions : bool) (numSamples : Z) (timestamp : string)
    (datasets : list string) (w : World) (steps : list EvaluationStep)
    : (World * list EvaluationStep) * Completion unit :=
  match datasets with
  | [] => ((w, steps), Return tt)
  | dataset :: rest =>
      let call := predictionsCallFor comparisonModel storeCompletions
                    numSamples timestamp dataset in
      match runPredictions call w with
      | (w1, Throw error) => ((w1, steps ++ [RunPredictions call]), Throw error)
      | (w1, Return _) =>
          let files := analysisFilesFor comparisonModel timestamp dataset in
          match analyzePredictions files w1 with
          | (w2, Throw error) =>
              ((w2, steps ++ [RunPredictions call; AnalyzePredictions files]),
               Throw error)
          | (w2, Return _) =>
              evaluateDatasets comparisonModel storeCompletions numSamples
                timestamp rest w2
                (steps ++ [RunPredictions call; AnalyzePredictions files])
          end
      end
  end.

(** [numSamples] and [datasets] are optional in the configuration. *)
Definition runEvaluation (now : DateParts) (comparisonModel : string)
    (numSamples : option Z) (datasets : option (list string)) (w : World)
    : (World * list EvaluationStep) * Completion unit :=
  let numSamples := default 3 numSamples in
  let datasets := default ["train"; "validation"] datasets in
  let storeCompletions :=
    String.eqb comparisonModel "gpt-4o-mini"
    && existsb (String.eqb "train") datasets in
  let timestamp := getRunTimestamp now in
  evaluateDatasets comparisonModel storeCompletions numSamples timestamp
    datasets w [].

End RunEvaluation.

Section Cli.
(** [parseInt] of a string or [undefined]; [None] stands for [NaN]. *)
Variable parseInt : option string -> option Z.
(** The settlement of the promise returned by [runEvaluation]. *)
Variable runEvaluation : EvaluationConfig -> Completion unit.

Definition cli (argv : list string) : ProcessResult :=
  let model := orDefault (argv !! 2%nat) "gpt-4o-mini" in
  let datasetsArg := orDefault (argv !! 3%nat) "train,validation" in
  let numSamples :=
    match parseInt (argv !! 4%nat) with
    | Some n => if n =? 0 then 3 else n
    | None => 3
    end in
  if String.eqb model EmptyString
  then {| stderr := [PleaseProvideModel]; exitCode := Some 1 |}
  else
    let datasets := split (Ascii.ascii_of_nat 44) datasetsArg in
    match runEvaluation {| comparisonModel := model;
                           datasets := datasets;
                           numSamples := numSamples |} with
    | Return _ => {| stderr := []; exitCode := None |}
    | Throw error =>
        {| stderr := [ErrorDuringEvaluation error]; exitCode := Some 1 |}
    end.

End Cli.
End RunEvaluation.

(** ** A concrete host, to run the definitions on examples *)

Definition exampleHost : JsHost :=
  {| Number := Z;
     Date := string;
     number_falsy := fun n => n =? 0;
     number_toString := fun n => pretty.pretty n;
     date_toString := fun d => d;
     date_toISOString := fun d => d |}.

(** ** Vocabulary of the statements *)

Section Vocabulary.
Context `{JsHost}.

(** The mismatched predictions of a list, as examples, in list order. *)
Definition mismatches (ps : list Step3.WinePredictionRecord)
    : list Step3.IncorrectExample :=
  map Step3.mkExample (List.filter (fun p => negb (Step3.isCorrect p)) ps).

(** The number of predictions equal to their ground truth. *)
Definition countCorrect (ps : list Step3.WinePredictionRecord) : nat :=
  length (List.filter Step3.isCorrect ps).

(** The error the [try] block of an attempt throws on a call outcome,
    if it throws. *)
Definition failure (r : Step2.CallResult) : option Error :=
  match Step2.tryBody r with
  | (_, Throw e) => Some e
  | (_, Return _) => None
  end.

(** The request every attempt of one [getPrediction] call sends. *)
Definition requestOf (model prompt : string)
    (responseFormat : Step2.ResponseFormat) (timestamp : string)
    (storeCompletions : option bool) : Step2.Request :=
  Step2.buildRequest model prompt responseFormat timestamp
    (default true storeCompletions).

(** An explicit refusal: a first choice with no parsed payload and a
    refusal text. *)
Definition explicitRefusal (r : Step2.CallResult) : bool :=
  match r with
  | Step2.Completed (m :: _) =>
      match Step2.parsed m with
      | Some _ => false
      | None => Step2.refusal_truthy m
      end
  | _ => false
  end.

(** Remote calls issued and pauses taken along a trace. *)
Definition callsOf (trace : list Step2.Event) : nat :=
  length (List.filter (fun ev => match ev with Step2.EvCall _ => true | _ => false end)
            trace).

Definition sleepsOf (trace : list Step2.Event) : list Z :=
  omap (fun ev => match ev with Step2.EvSleep ms => Some ms | _ => None end) trace.

(** [n] failed attempts in a row, numbered from [attempt], each followed
    by its pause of [2 ^ attempt * 1000] milliseconds. *)
Fixpoint retriedAttempts (req : Step2.Request) (attempt : Z) (n : nat)
    : list Step2.Event :=
  match n with
  | O => []
  | S n' =>
      Step2.EvCall req :: Step2.EvSleep (2 ^ attempt * 1000)
        :: retriedAttempts req (attempt + 1) n'
  end.

(** A dataset row [main] keeps: winery, variety and description are all
    present with a truthy value. *)
Definition hasRequiredFields (record : gmap string JsValue) : bool :=
  truthy (js_get record "winery") && truthy (js_get record "variety")
  && truthy (js_get record "description").

(** The [WineRecord] that [main] builds from a row. *)
Definition toWineRecord (record : gmap string JsValue) : Step2.WineRecord :=
  {| Step2.winery := js_get record "winery";
     Step2.province := js_get record "province";
     Step2.country := js_get record "country";
     Step2.region_1 := js_get record "region_1";
     Step2.description := js_get record "description";
     Step2.taster_name := js_get record "taster_name";
     Step2.points := js_get record "points";
     Step2.price := js_get record "price";
     Step2.variety := js_get record "variety" |}.

(** The rows of a predictions file that pass the type guard once
    mapped, in file order. *)
Definition validPredictions (rows : list (list JsValue))
    : list Step3.MappedRecord :=
  List.filter Step3.validateWinePredictionRecord (map Step3.mapRecord rows).

(** What a batch owes the record at [index]: the prediction result when
    its request ends with a label, [null] when it ends with an error. *)
Definition recordEntry (env : Step2.BatchEnv) (varieties : list string)
    (startIdx : Z) (model timestamp : string) (storeCompletions : bool)
    (responseFormat : Step2.ResponseFormat)
    (index : nat) (record : Step2.WineRecord)
    : option Step2.PredictionResult :=
  match snd (Step2.getPrediction (Step2.remoteFor env index) model
               (Step2.generatePrompt record varieties) responseFormat
               timestamp (Some storeCompletions) None) with
  | Return prediction =>
      Some {| Step2.pr_recordId := startIdx + Z.of_nat index;
              Step2.pr_model := model;
              Step2.pr_prediction := prediction;
              Step2.pr_timestamp := Step2.nowFor env index;
              Step2.pr_winery := Step2.winery record;
              Step2.pr_variety := Step2.variety record;
              Step2.pr_actual_variety := Step2.variety record |}
  | Throw _ => None
  end.

(** The batch the loop of [main] forms when its index is [i]. *)
Definition batchAt (sampledRecords : list Step2.WineRecord) (i : Z)
    : Step2.BatchRun :=
  {| Step2.batchRecords := slice sampledRecords i (i + Step2.BATCH_SIZE);
     Step2.batchStart := i;
     Step2.batchNumber :=
       Qfloor (inject_Z i / inject_Z Step2.BATCH_SIZE) + 1;
     Step2.totalBatches :=
       Qceiling (inject_Z (Z.of_nat (length sampledRecords))
                 / inject_Z Step2.BATCH_SIZE);
     Step2.pauseAfter :=
       i + Step2.BATCH_SIZE <? Z.of_nat (length sampledRecords) |}.

(** The record at position [k] of the sampled list lies in batch [b]. *)
Definition inBatch (k : nat) (b : Step2.BatchRun) : Prop :=
  Step2.batchStart b <= Z.of_nat k
  < Step2.batchStart b + Z.of_nat (length (Step2.batchRecords b)).



(** The time spent pausing along a trace, in milliseconds. *)
Definition totalPause (trace : list Step2.Event) : Z :=
  fold_right Z.add 0 (sleepsOf trace).

(** The data rows of a file, none when the file does not exist. *)
Definition fileRows (disk : gmap string (list Step2.PredictionResult))
    (path : string) : list Step2.PredictionResult :=
  default [] (disk !! path).

(** The file [saveResults] writes to for a model, a run and a dataset. *)
Definition predictionsPath (model timestamp datasetPath : string) : string :=
  Step2.csv_path
    (Step2.createCsvWriter model timestamp (Step2.getDatasetType datasetPath)).

(** The results a batch of the loop hands to [saveResults]. *)
Definition batchResultsOf (envFor : Z -> Step2.BatchEnv)
    (model timestamp : string) (storeCompletions : bool)
    (responseFormat : Step2.ResponseFormat) (b : Step2.BatchRun)
    : list Step2.PredictionResult :=
  match snd (Step2.processBatch (envFor (Step2.batchStart b))
               (Step2.batchRecords b) (Step2.batchStart b) model timestamp
               storeCompletions responseFormat) with
  | Return results => results
  | Throw _ => []
  end.

End Vocabulary.


(** A record the reader keeps: the mapping of a row, accepted by the
    type guard. *)
Definition keptRecord `{JsHost} (r : Step3.MappedRecord) : Prop :=
  exists row,
    r = Step3.mapRecord row /\ Step3.validateWinePredictionRecord r = true.

(** A stream event that is a row. *)
Definition isRow `{JsHost} (ev : Step3.StreamEvent) : Prop :=
  exists row, ev = Step3.SData row.

(** The steps of an evaluation in which nothing fails: for each dataset
    in turn, the predictions and then their analysis. *)
Definition evaluationPlan (comparisonModel : string) (storeCompletions : bool)
    (numSamples : Z) (timestamp : string) (datasets : list string)
    : list RunEvaluation.EvaluationStep :=
  flat_map
    (fun dataset =>
       [ RunEvaluation.RunPredictions
           (RunEvaluation.predictionsCallFor comparisonModel storeCompletions
              numSamples timestamp dataset);
         RunEvaluation.AnalyzePredictions
           (RunEvaluation.analysisFilesFor comparisonModel timestamp dataset) ])
    datasets.

Section EvaluationVocabulary.
Variable World : Type.
Variable runPredictions :
  RunEvaluation.PredictionsCall -> World -> World * Completion unit.
Variable analyzePredictions :
  RunEvaluation.AnalysisFiles -> World -> World * Completion unit.

(** One step of an evaluation, run on the outside world. *)
Definition runStep (step : RunEvaluation.EvaluationStep) (w : World)
    : World * Completion unit :=
  match step with
  | RunEvaluation.RunPredictions call => runPredictions call w
  | RunEvaluation.AnalyzePredictions files => analyzePredictions files w
  end.

(** The world after steps run one after the other, when each of them
    fulfils. *)
Fixpoint afterSteps (steps : list RunEvaluation.EvaluationStep) (w : World)
    : option World :=
  match steps with
  | [] => Some w
  | step :: rest =>
      match runStep step w with
      | (w1, Return _) => afterSteps rest w1
      | (_, Throw _) => None
      end
  end.

End EvaluationVocabulary.

(** A number padded to two digits, as in the run timestamp. *)
Definition twoDigits (n : nat) : string :=
  padStart (natToString n) 2 zeroDigit.

(** The two decimal digits of a number below one hundred, tens first. *)
Definition digits2 (n : nat) : string :=
  String (Ascii.ascii_of_nat (48 + n / 10))
    (String (Ascii.ascii_of_nat (48 + n mod 10)) EmptyString).

(** Month, day, hour and minute as a clock can show them. *)
Definition validDateParts (now : DateParts) : Prop :=
  (getMonth now < 12 /\ 1 <= getDate now <= 31
   /\ getHours now < 24 /\ getMinutes now < 60)%nat.

(** ** Example data *)

Module Examples.
#[local] Existing Instance exampleHost.

Definition pred (given truth : string) : Step3.WinePredictionRecord :=
  {| Step3.recordId := JsNumber 7; Step3.model := "gpt-4o";
     Step3.prediction := given; Step3.timestamp := "t";
     Step3.winery := "Domaine"; Step3.variety := truth;
     Step3.actual_variety := truth |}.

Definition threePredictions : list Step3.WinePredictionRecord :=
  [pred "Merlot" "Merlot"; pred "Syrah" "Malbec"; pred "Riesling" "Riesling"].

(** Seven predictions from seven wineries, all wrong but the third. *)
Definition sevenPredictions : list Step3.WinePredictionRecord :=
  [ {| Step3.recordId := JsNumber 0; Step3.model := "gpt-4o-mini";
       Step3.prediction := "Syrah"; Step3.timestamp := "t";
       Step3.winery := "Aa"; Step3.variety := "Malbec";
       Step3.actual_variety := "Malbec" |};
    {| Step3.recordId := JsNumber 1; Step3.model := "gpt-4o-mini";
       Step3.prediction := "Merlot"; Step3.timestamp := "t";
       Step3.winery := "Bb"; Step3.variety := "Riesling";
       Step3.actual_variety := "Riesling" |};
    {| Step3.recordId := JsNumber 2; Step3.model := "gpt-4o-mini";
       Step3.prediction := "Gamay"; Step3.timestamp := "t";
       Step3.winery := "Cc"; Step3.variety := "Gamay";
       Step3.actual_variety := "Gamay" |};
    {| Step3.recordId := JsNumber 3; Step3.model := "gpt-4o-mini";
       Step3.prediction := "Malbec"; Step3.timestamp := "t";
       Step3.winery := "Dd"; Step3.variety := "Syrah";
       Step3.actual_variety := "Syrah" |};
    {| Step3.recordId := JsNumber 4; Step3.model := "gpt-4o-mini";
       Step3.prediction := "Riesling"; Step3.timestamp := "t";
       Step3.winery := "Ee"; Step3.variety := "Merlot";
       Step3.actual_variety := "Merlot" |};
    {| Step3.recordId := JsNumber 5; Step3.model := "gpt-4o-mini";
       Step3.prediction := "Zinfandel"; Step3.timestamp := "t";
       Step3.winery := "Ff"; Step3.variety := "Gamay";
       Step3.actual_variety := "Gamay" |};
    {| Step3.recordId := JsNumber 6; Step3.model := "gpt-4o-mini";
       Step3.prediction := "Furmint"; Step3.timestamp := "t";
       Step3.winery := "Gg"; Step3.variety := "Tannat";
       Step3.actual_variety := "Tannat" |} ].

Definition format : Step2.ResponseFormat :=
  {| Step2.schema_name := "wine_variety_prediction";
     Step2.allowed_varieties := ["Merlot"; "Malbec"] |}.

Definition refusing : Step2.Message :=
  {| Step2.parsed := None; Step2.refusal := Some "I cannot answer that" |}.

Definition answering (label : string) : Step2.Message :=
  {| Step2.parsed := Some {| Step2.parsed_variety := label |};
     Step2.refusal := None |}.

(** A remote model that refuses at every attempt. *)
Definition alwaysRefuses : Z -> Step2.CallResult :=
  fun _ => Step2.Completed [refusing].

(** A remote endpoint that rejects every call. *)
Definition alwaysDown : Z -> Step2.CallResult :=
  fun _ => Step2.Rejected "503 Service Unavailable".

(** Two failures, then an answer. *)
Definition thirdTimeLucky : Z -> Step2.CallResult :=
  fun attempt =>
    if attempt <? 3 then Step2.Rejected "429 Too Many Requests"
    else Step2.Completed [answering "Merlot"].

(** A predictions row without record id, and a complete one. *)
Definition rowWithoutId : list JsValue :=
  [JsNull; JsString "gpt-4o"; JsString "Merlot"; JsString "t";
   JsString "Domaine"; JsString "Merlot"; JsString "Merlot"].

Definition completeRow : list JsValue :=
  [JsNumber 0; JsString "gpt-4o"; JsString "Merlot"; JsString "t";
   JsString "Domaine"; JsString "Merlot"; JsString "Merlot"].

(** A file system with one predictions file, whose only row has no id. *)
Definition onlyMalformed (path : string) : option (list Step3.StreamEvent) :=
  if String.eqb path "predictions.csv" then Some [Step3.SData rowWithoutId]
  else None.

Definition mixedFile (path : string) : option (list Step3.StreamEvent) :=
  Some (map Step3.SData [rowWithoutId; completeRow]).

Definition wine (name : string) : Step2.WineRecord :=
  {| Step2.winery := JsString name; Step2.province := JsString "Mendoza";
     Step2.country := JsString "Argentina"; Step2.region_1 := JsNull;
     Step2.description := JsString "Dark fruit"; Step2.taster_name := JsNull;
     Step2.points := JsNumber 90; Step2.price := JsNumber 25;
     Step2.variety := JsString "Malbec" |}.

(** The second record of the batch meets an endpoint that is down, the
    others an answer at the first attempt. *)
Definition secondFails : Step2.BatchEnv :=
  {| Step2.varietiesOutcome := Return ["Merlot"; "Malbec"];
     Step2.remoteFor := fun index =>
       if Nat.eqb index 1 then alwaysDown
       else fun _ => Step2.Completed [answering "Malbec"];
     Step2.nowFor := fun _ => "2024-11-03T07:15:00.000Z" |}.

(** Every record is answered at the first attempt. *)
Definition allAnswer : Step2.BatchEnv :=
  {| Step2.varietiesOutcome := Return ["Merlot"; "Malbec"];
     Step2.remoteFor := fun _ _ => Step2.Completed [answering "Malbec"];
     Step2.nowFor := fun _ => "2024-11-03T07:15:00.000Z" |}.

Definition threeWines : list Step2.WineRecord :=
  [wine "A"; wine "B"; wine "C"].



(** The parse stream of the training data fails after its first row. *)
Definition noVarieties : Step2.BatchEnv :=
  {| Step2.varietiesOutcome :=
       Step2.awaitVarieties
         (Step2.getUniqueVarieties (fun raw => raw)
            [Step2.VData {[ "variety" := "Malbec" ]};
             Step2.VError "Stream destroyed"]);
     Step2.remoteFor := fun _ _ => Step2.Completed [answering "Malbec"];
     Step2.nowFor := fun _ => "2024-11-03T07:15:00.000Z" |}.

(** The result [allAnswer] gives the first of [threeWines] from index 0. *)
Definition zerothResult : Step2.PredictionResult :=
  {| Step2.pr_recordId := 0; Step2.pr_model := "gpt-4o";
     Step2.pr_prediction := "Malbec";
     Step2.pr_timestamp := "2024-11-03T07:15:00.000Z";
     Step2.pr_winery := JsString "A"; Step2.pr_variety := JsString "Malbec";
     Step2.pr_actual_variety := JsString "Malbec" |}.

(** A dataset row with its required fields, and one without description. *)
Definition fullRow : gmap string JsValue :=
  list_to_map [("winery", JsString "A"); ("variety", JsString "Malbec");
               ("description", JsString "Dark fruit");
               ("points", JsNumber 90)].

Definition rowWithoutDescription : gmap string JsValue :=
  list_to_map [("winery", JsString "B"); ("variety", JsString "Merlot")].

End Examples.

(** * Properties *)

(** ** Array slices *)

Lemma firstn_min_length {A} (n : nat) (l : list A) :
  firstn n l = firstn (Nat.min n (length l)) l.
Proof.
  destruct (Nat.le_gt_cases n (length l)) as [Hle | Hgt].
  - now rewrite Nat.min_l.
  - rewrite Nat.min_r by lia.
    rewrite !firstn_all2; auto; lia.
Qed.

(** For indices that are natural numbers, [slice] is [firstn] after
    [skipn]. *)
Lemma slice_nat {A} (l : list A) (i j : nat) :
  slice l (Z.of_nat i) (Z.of_nat j) = firstn (j - i) (skipn i l).
Proof.
  unfold slice, slice_bound. cbv zeta.
  destruct (Z.ltb_spec (Z.of_nat i) 0); [lia |].
  destruct (Z.ltb_spec (Z.of_nat j) 0); [lia |].
  destruct (Nat.le_gt_cases (length l) i) as [Hout | Hin].
  - rewrite (Z.min_r (Z.of_nat i)) by lia. rewrite Nat2Z.id.
    rewrite !skipn_all2 by lia. now rewrite !firstn_nil.
  - rewrite (Z.min_l (Z.of_nat i)) by lia. rewrite Nat2Z.id.
    rewrite (firstn_min_length (j - i)). rewrite length_skipn.
    f_equal. lia.
Qed.

Lemma slice_prefix {A} (l : list A) (n : nat) :
  slice l 0 (Z.of_nat n) = firstn n l.
Proof.
  change 0 with (Z.of_nat 0). rewrite slice_nat.
  now rewrite Nat.sub_0_r.
Qed.

(** ** step3: accuracy *)

Section AccuracyFacts.
Context `{JsHost}.
Import Step3.

(** The loop counts the correct predictions and appends the others in
    the order it meets them. *)
Lemma accuracy_loop (ps : list WinePredictionRecord) :
  forall correct examples,
    fold_left accuracyStep ps (correct, examples)
    = ((correct + countCorrect ps)%nat, examples ++ mismatches ps).
Proof.
  unfold countCorrect, mismatches.
  induction ps as [| p ps IH]; intros correct examples; simpl.
  - now rewrite Nat.add_0_r, app_nil_r.
  - destruct (isCorrect p); simpl; rewrite IH.
    + f_equal. lia.
    + now rewrite <- app_assoc.
Qed.

Lemma calculateWineAccuracy_nonempty (ps : list WinePredictionRecord) :
  ps <> [] ->
  exists first,
    head ps = Some first /\
    calculateWineAccuracy ps
    = Return {| res_model := model first;
                totalPredictions := length ps;
                correctPredictions := countCorrect ps;
                accuracy := ratio (countCorrect ps) (length ps);
                incorrectExamples := firstn 5 (mismatches ps) |}.
Proof.
  destruct ps as [| first rest]; [congruence |]. intros _.
  exists first. split; [reflexivity |].
  unfold calculateWineAccuracy.
  rewrite accuracy_loop. simpl app.
  change 5 with (Z.of_nat 5). now rewrite slice_prefix.
Qed.

Lemma countCorrect_le (ps : list WinePredictionRecord) :
  (countCorrect ps <= length ps)%nat.
Proof. apply List.filter_length_le. Qed.

Lemma countCorrect_all (ps : list WinePredictionRecord) :
  List.Forall (fun p => isCorrect p = true) ps -> countCorrect ps = length ps.
Proof.
  unfold countCorrect. induction 1 as [| p ps Hp _ IH]; simpl; [reflexivity |].
  rewrite Hp. simpl. now rewrite IH.
Qed.

Lemma countCorrect_none (ps : list WinePredictionRecord) :
  List.Forall (fun p => isCorrect p = false) ps -> countCorrect ps = 0%nat.
Proof.
  unfold countCorrect. induction 1 as [| p ps Hp _ IH]; simpl; [reflexivity |].
  now rewrite Hp.
Qed.

Lemma ratio_bounds (n d : nat) :
  (0 < d)%nat -> (n <= d)%nat -> (0 <= ratio n d /\ ratio n d <= 1)%Q.
Proof.
  intros Hd Hn. unfold ratio.
  assert (0 < inject_Z (Z.of_nat d))%Q as Hpos.
  { change 0%Q with (inject_Z 0). rewrite <- Zlt_Qlt. lia. }
  split.
  - apply Qle_shift_div_l; [exact Hpos |].
    rewrite Qmult_0_l. change 0%Q with (inject_Z 0). rewrite <- Zle_Qle. lia.
  - apply Qle_shift_div_r; [exact Hpos |].
    rewrite Qmult_1_l. rewrite <- Zle_Qle. lia.
Qed.

Lemma ratio_full (d : nat) : (0 < d)%nat -> (ratio d d == 1)%Q.
Proof.
  intros Hd. unfold ratio. apply Qmult_inv_r.
  change 0%Q with (inject_Z 0). rewrite inject_Z_injective. lia.
Qed.

Lemma ratio_zero (d : nat) : (ratio 0 d == 0)%Q.
Proof. unfold ratio. simpl. unfold Qdiv. apply Qmult_0_l. Qed.

End AccuracyFacts.

(** ** step3: the claims on [calculateWineAccuracy] *)

Section AccuracyClaims.
Context `{JsHost}.
Import Step3.

(** C4. The accuracy calculation fails on an empty prediction set: it
    throws 'No predictions to analyze' and returns no result at all. *)
Theorem calculateWineAccuracy_empty_fails :
  calculateWineAccuracy [] = Throw ErrNoPredictions
  /\ forall r, calculateWineAccuracy [] <> Return r.
Proof. split; [reflexivity | discriminate]. Qed.

(** C5. On a non-empty list the result carries
    accuracy = correctPredictions / totalPredictions, a number of [0, 1],
    which is 1 when every prediction equals its ground truth and 0 when
    none does. *)
Theorem calculateWineAccuracy_accuracy (ps : list WinePredictionRecord) :
  ps <> [] ->
  exists r,
    calculateWineAccuracy ps = Return r
    /\ totalPredictions r = length ps
    /\ correctPredictions r = countCorrect ps
    /\ (accuracy r == inject_Z (Z.of_nat (correctPredictions r))
                      / inject_Z (Z.of_nat (totalPredictions r)))%Q
    /\ (0 <= accuracy r)%Q /\ (accuracy r <= 1)%Q
    /\ (List.Forall (fun p => prediction p = actual_variety p) ps ->
        (accuracy r == 1)%Q)
    /\ (List.Forall (fun p => prediction p <> actual_variety p) ps ->
        (accuracy r == 0)%Q).
Proof.
  intros Hne.
  destruct (calculateWineAccuracy_nonempty ps Hne) as (first & _ & Hres).
  assert (0 < length ps)%nat as Hlen by (destruct ps; [congruence | simpl; lia]).
  eexists. split; [exact Hres |]. simpl.
  destruct (ratio_bounds (countCorrect ps) (length ps) Hlen (countCorrect_le ps))
    as [Hlo Hhi].
  do 3 (split; [reflexivity |]).
  split; [exact Hlo |]. split; [exact Hhi |]. split.
  - intros Hall. rewrite countCorrect_all.
    + now apply ratio_full.
    + eapply List.Forall_impl; [| exact Hall].
      intros p Hp. now apply String.eqb_eq.
  - intros Hnone. rewrite countCorrect_none.
    + apply ratio_zero.
    + eapply List.Forall_impl; [| exact Hnone].
      intros p Hp. now apply String.eqb_neq.
Qed.

(** C9. On a non-empty list, [incorrectExamples] holds exactly the first
    min(5, number of mismatches) mismatched predictions, in input order:
    the predictions whose label differs from their ground truth, each
    shown with its winery, its predicted label and its actual label. *)
Theorem calculateWineAccuracy_incorrectExamples (ps : list WinePredictionRecord) :
  ps <> [] ->
  let wrong :=
    List.filter
      (fun p => negb (String.eqb (prediction p) (actual_variety p))) ps in
  exists r,
    calculateWineAccuracy ps = Return r
    /\ incorrectExamples r
       = map (fun p => {| ex_winery := winery p;
                          predicted := prediction p;
                          actual := actual_variety p |})
           (firstn (Nat.min 5 (length wrong)) wrong)
    /\ length (incorrectExamples r) = Nat.min 5 (length wrong).
Proof.
  intros Hne wrong.
  destruct (calculateWineAccuracy_nonempty ps Hne) as (first & _ & Hres).
  eexists. split; [exact Hres |]. cbn [incorrectExamples].
  assert (firstn 5 (mismatches ps)
          = map (fun p => {| ex_winery := winery p;
                             predicted := prediction p;
                             actual := actual_variety p |})
              (firstn (Nat.min 5 (length wrong)) wrong)) as Hkept.
  { unfold mismatches. fold wrong. rewrite firstn_map.
    now rewrite <- (firstn_min_length 5 wrong). }
  split; [exact Hkept |].
  rewrite Hkept, length_map, length_firstn. lia.
Qed.

End AccuracyClaims.

Lemma calculateWineAccuracy_accuracy_witness :
  Examples.threePredictions <> []
  /\ exists r,
       Step3.calculateWineAccuracy Examples.threePredictions = Return r
       /\ (0 <= Step3.accuracy r)%Q /\ (Step3.accuracy r <= 1)%Q.
Proof.
  split; [discriminate |].
  destruct (calculateWineAccuracy_accuracy (H := exampleHost)
              Examples.threePredictions)
    as (r & Hr & _ & _ & _ & Hlo & Hhi & _); [discriminate |].
  exists r. auto.
Defined.

Lemma calculateWineAccuracy_incorrectExamples_witness :
  Examples.sevenPredictions <> []
  /\ exists r,
       Step3.calculateWineAccuracy Examples.sevenPredictions = Return r
       /\ Step3.incorrectExamples r
          = [ {| Step3.ex_winery := "Aa"; Step3.predicted := "Syrah";
                 Step3.actual := "Malbec" |};
              {| Step3.ex_winery := "Bb"; Step3.predicted := "Merlot";
                 Step3.actual := "Riesling" |};
              {| Step3.ex_winery := "Dd"; Step3.predicted := "Malbec";
                 Step3.actual := "Syrah" |};
              {| Step3.ex_winery := "Ee"; Step3.predicted := "Riesling";
                 Step3.actual := "Merlot" |};
              {| Step3.ex_winery := "Ff"; Step3.predicted := "Zinfandel";
                 Step3.actual := "Gamay" |} ].
Proof.
  split; [discriminate |].
  destruct (calculateWineAccuracy_incorrectExamples (H := exampleHost)
              Examples.sevenPredictions)
    as (r & Hr & Hexamples & _); [discriminate |].
  exists r. split; [exact Hr | exact Hexamples].
Defined.

(** ** step2: the retry loop of [getPrediction] *)

Section RetryLoop.
Import Step2.

Lemma attemptLoop_unfold (remote : Z -> CallResult) (req : Request)
    (retries attempt : Z) :
  attemptLoop remote req retries attempt
  = if attempt <=? retries then
      match tryBody (remote attempt) with
      | (log, Return v) => (EvCall req :: log, Return v)
      | (log, Throw error) =>
          if attempt =? retries then (EvCall req :: log, Throw error)
          else
            let '(rest, outcome) :=
              attemptLoop remote req retries (attempt + 1) in
            (EvCall req :: log ++ EvSleep (2 ^ attempt * 1000) :: rest, outcome)
      end
    else ([], Throw ErrAllRetriesFailed).
Proof.
  funelim (attemptLoop remote req retries attempt).
  - rewrite Hle. reflexivity.
  - rewrite e. reflexivity.
Qed.

Lemma failure_tryBody (r : CallResult) (e : Error) :
  failure r = Some e <-> tryBody r = ([], Throw e).
Proof.
  unfold failure, tryBody.
  destruct r as [cause | [| message rest]]; simpl.
  - split; intros [= ->]; reflexivity.
  - split; intros [= <-]; reflexivity.
  - destruct (parsed message); [split; discriminate |].
    destruct (refusal_truthy message); split; intros [= <-]; reflexivity.
Qed.

Lemma failure_None (r : CallResult) :
  failure r = None <->
  exists p, tryBody r = ([EvLogParsed p], Return (parsed_variety p)).
Proof.
  unfold failure, tryBody.
  destruct r as [cause | [| message rest]]; simpl.
  - split; [discriminate | intros [p [=]]].
  - split; [discriminate | intros [p [=]]].
  - destruct (parsed message) as [p |].
    + split; [intros _; now exists p | reflexivity].
    + destruct (refusal_truthy message);
        (split; [discriminate | intros [p [=]]]).
Qed.

(** No attempt throws the error of the statement after the loop. *)
Lemma failure_not_exhausted (r : CallResult) :
  failure r <> Some ErrAllRetriesFailed.
Proof.
  unfold failure, tryBody.
  destruct r as [cause | [| message rest]]; simpl; try discriminate.
  destruct (parsed message); [discriminate |].
  destruct (refusal_truthy message); discriminate.
Qed.

Lemma explicitRefusal_failure (r : CallResult) :
  explicitRefusal r = true -> failure r = Some ErrModelRefused.
Proof.
  unfold explicitRefusal, failure, tryBody.
  destruct r as [cause | [| message rest]]; try discriminate.
  destruct (parsed message); [discriminate |].
  now intros ->.
Qed.

(** The loop is past the budget: only then is the trailing [throw] met. *)
Lemma attemptLoop_past_budget remote req retries attempt :
  retries < attempt ->
  attemptLoop remote req retries attempt = ([], Throw ErrAllRetriesFailed).
Proof.
  intros Hgt. rewrite attemptLoop_unfold.
  destruct (Z.leb_spec attempt retries); [lia | reflexivity].
Qed.

(** A successful attempt within the budget returns at once. *)
Lemma attemptLoop_success remote req retries attempt p :
  attempt <= retries ->
  tryBody (remote attempt) = ([EvLogParsed p], Return (parsed_variety p)) ->
  attemptLoop remote req retries attempt
  = ([EvCall req; EvLogParsed p], Return (parsed_variety p)).
Proof.
  intros Hle Hok. rewrite attemptLoop_unfold, Hok.
  destruct (Z.leb_spec attempt retries); [reflexivity | lia].
Qed.

(** A failed last attempt rethrows what it caught. *)
Lemma attemptLoop_fail_last remote req retries e :
  failure (remote retries) = Some e ->
  attemptLoop remote req retries retries = ([EvCall req], Throw e).
Proof.
  intros Hf. apply failure_tryBody in Hf.
  rewrite attemptLoop_unfold, Hf, Z.leb_refl, Z.eqb_refl. reflexivity.
Qed.

(** A failed earlier attempt pauses and hands over to the next one. *)
Lemma attemptLoop_fail_retry remote req retries attempt e :
  attempt < retries ->
  failure (remote attempt) = Some e ->
  attemptLoop remote req retries attempt
  = (EvCall req :: EvSleep (2 ^ attempt * 1000)
       :: fst (attemptLoop remote req retries (attempt + 1)),
     snd (attemptLoop remote req retries (attempt + 1))).
Proof.
  intros Hlt Hf. apply failure_tryBody in Hf.
  rewrite (attemptLoop_unfold remote req retries attempt), Hf.
  destruct (Z.leb_spec attempt retries); [| lia].
  destruct (Z.eqb_spec attempt retries); [lia |].
  destruct (attemptLoop remote req retries (attempt + 1)). reflexivity.
Qed.

(** When every attempt left fails, the loop goes through all of them and
    ends by rethrowing the error of the last. *)
Lemma attemptLoop_all_fail remote req retries (n : nat) :
  forall attempt,
    retries = attempt + Z.of_nat n ->
    (forall k, attempt <= k <= retries -> failure (remote k) <> None) ->
    exists e,
      failure (remote retries) = Some e
      /\ attemptLoop remote req retries attempt
         = (retriedAttempts req attempt n ++ [EvCall req], Throw e).
Proof.
  induction n as [| n IH]; intros attempt Hn Hfail.
  - assert (attempt = retries) as -> by lia.
    destruct (failure (remote retries)) as [e |] eqn:Hf.
    + exists e. split; [reflexivity |]. now apply attemptLoop_fail_last.
    + exfalso. apply (Hfail retries); [lia | exact Hf].
  - destruct (failure (remote attempt)) as [e0 |] eqn:Hf0.
    2:{ exfalso. apply (Hfail attempt); [lia | exact Hf0]. }
    destruct (IH (attempt + 1)) as (e & He & Hrun); [lia | |].
    { intros k Hk. apply Hfail. lia. }
    exists e. split; [exact He |].
    rewrite (attemptLoop_fail_retry _ _ _ _ e0) by (lia || assumption).
    rewrite Hrun. reflexivity.
Qed.

Lemma callsOf_retriedAttempts req (n : nat) :
  forall attempt, callsOf (retriedAttempts req attempt n ++ [EvCall req]) = S n.
Proof.
  unfold callsOf. induction n as [| n IH]; intros attempt; simpl.
  - reflexivity.
  - f_equal. apply IH.
Qed.

Lemma sleepsOf_retriedAttempts req (n : nat) :
  forall attempt,
    sleepsOf (retriedAttempts req attempt n ++ [EvCall req])
    = map (fun k => 2 ^ k * 1000) (seqZ attempt (Z.of_nat n)).
Proof.
  unfold sleepsOf. induction n as [| n IH]; intros attempt.
  - reflexivity.
  - rewrite Nat2Z.inj_succ, seqZ_cons by lia. simpl.
    f_equal. rewrite IH. do 2 f_equal. lia.
Qed.

(** Within the budget the loop ends inside its body: with the label of
    the first successful attempt, or with the error of the last attempt
    when none succeeds. *)
Lemma attemptLoop_outcome remote req retries (n : nat) :
  forall attempt,
    retries = attempt + Z.of_nat n ->
    (exists k p,
        attempt <= k <= retries
        /\ (forall j, attempt <= j < k -> failure (remote j) <> None)
        /\ tryBody (remote k) = ([EvLogParsed p], Return (parsed_variety p))
        /\ snd (attemptLoop remote req retries attempt)
           = Return (parsed_variety p))
    \/ (exists e,
          (forall j, attempt <= j <= retries -> failure (remote j) <> None)
          /\ failure (remote retries) = Some e
          /\ snd (attemptLoop remote req retries attempt) = Throw e).
Proof.
  induction n as [| n IH]; intros attempt Hn.
  - assert (attempt = retries) as -> by lia.
    destruct (failure (remote retries)) as [e |] eqn:Hf.
    + right. exists e. split; [| split; [reflexivity |]].
      * intros j Hj. assert (j = retries) as -> by lia. congruence.
      * now rewrite (attemptLoop_fail_last _ _ _ e).
    + left. apply failure_None in Hf as [p Hp]. exists retries, p.
      split; [lia |]. split; [intros j Hj; lia |]. split; [exact Hp |].
      now rewrite (attemptLoop_success _ _ _ _ p) by (lia || assumption).
  - destruct (failure (remote attempt)) as [e0 |] eqn:Hf0.
    + rewrite (attemptLoop_fail_retry _ _ _ _ e0) by (lia || assumption).
      cbn [snd].
      destruct (IH (attempt + 1)) as [(k & p & Hk & Hbefore & Hp & Hres)
                                     | (e & Hall & He & Hres)]; [lia | |].
      * left. exists k, p. split; [lia |]. split; [| split; assumption].
        intros j Hj. destruct (Z.eq_dec j attempt) as [-> | Hne].
        -- congruence.
        -- apply Hbefore. lia.
      * right. exists e. split; [| split; assumption].
        intros j Hj. destruct (Z.eq_dec j attempt) as [-> | Hne].
        -- congruence.
        -- apply Hall. lia.
    + left. apply failure_None in Hf0 as [p Hp]. exists attempt, p.
      split; [lia |]. split; [intros j Hj; lia |]. split; [exact Hp |].
      now rewrite (attemptLoop_success _ _ _ _ p) by (lia || assumption).
Qed.

End RetryLoop.

(** ** step2: the claims on [getPrediction] *)

Section GetPredictionClaims.
Import Step2.
Variable remote : Z -> CallResult.
Variables model prompt timestamp : string.
Variable responseFormat : ResponseFormat.
Variable storeCompletions : option bool.

Local Abbreviation req :=
  (requestOf model prompt responseFormat timestamp storeCompletions).

(** Without a budget the loop body never runs and the statement after
    the loop throws. *)
Lemma getPrediction_no_budget (retries : Z) :
  retries <= 0 ->
  getPrediction remote model prompt responseFormat timestamp storeCompletions
    (Some retries)
  = ([], Throw ErrAllRetriesFailed).
Proof.
  intros Hle. unfold getPrediction; cbn [from_option id].
  apply attemptLoop_past_budget. lia.
Qed.

(** C1, as the code has it.  A refusal is caught like any other failure
    of an attempt.  With a budget of one it ends the call after that
    single attempt; with a larger budget the call pauses 2 s and makes
    its second attempt, and a model that refuses every time is asked
    [N] times, with the pauses of the backoff in between, before the
    refusal is rethrown. *)
Theorem getPrediction_refusal_retried (N : Z) :
  1 <= N ->
  explicitRefusal (remote 1) = true ->
  let run := getPrediction remote model prompt responseFormat timestamp
               storeCompletions (Some N) in
  (N = 1 -> run = ([EvCall req], Throw ErrModelRefused))
  /\ (1 < N ->
      run = (EvCall req :: EvSleep 2000 :: fst (attemptLoop remote req N 2),
             snd (attemptLoop remote req N 2)))
  /\ ((forall k, 1 <= k <= N -> explicitRefusal (remote k) = true) ->
      run = (retriedAttempts req 1 (Z.to_nat (N - 1)) ++ [EvCall req],
             Throw ErrModelRefused)).
Proof.
  intros HN Href run. subst run. unfold getPrediction; cbn [from_option id].
  fold (requestOf model prompt responseFormat timestamp storeCompletions).
  pose proof (explicitRefusal_failure _ Href) as Hf.
  split; [| split].
  - intros ->. now apply attemptLoop_fail_last.
  - intros Hlt.
    now rewrite (attemptLoop_fail_retry _ _ _ _ ErrModelRefused).
  - intros Hall.
    destruct (attemptLoop_all_fail remote req N (Z.to_nat (N - 1)) 1)
      as (e & He & Hrun); [lia | |].
    + intros k Hk. rewrite (explicitRefusal_failure _ (Hall k Hk)).
      discriminate.
    + rewrite (explicitRefusal_failure _ (Hall N ltac:(lia))) in He.
      injection He as <-. exact Hrun.
Qed.

(** C2. With a budget N >= 1 and N failing attempts, the call ends by
    throwing (the error of the last attempt) and returns no label; it
    makes N remote calls and, after the failed attempt number k < N,
    pauses 2^k seconds before the retry. *)
Theorem getPrediction_exhausted (N : Z) :
  1 <= N ->
  (forall k, 1 <= k <= N -> failure (remote k) <> None) ->
  exists e trace,
    getPrediction remote model prompt responseFormat timestamp
      storeCompletions (Some N) = (trace, Throw e)
    /\ failure (remote N) = Some e
    /\ (forall label : string,
          snd (getPrediction remote model prompt responseFormat timestamp
                 storeCompletions (Some N)) <> Return label)
    /\ trace = retriedAttempts req 1 (Z.to_nat (N - 1)) ++ [EvCall req]
    /\ callsOf trace = Z.to_nat N
    /\ sleepsOf trace
       = map (fun attempt => 2 ^ attempt * 1000) (seqZ 1 (N - 1)).
Proof.
  intros HN Hfail.
  destruct (attemptLoop_all_fail remote req N (Z.to_nat (N - 1)) 1)
    as (e & He & Hrun); [lia | exact Hfail |].
  exists e, (retriedAttempts req 1 (Z.to_nat (N - 1)) ++ [EvCall req]).
  split; [exact Hrun |]. split; [exact He |].
  split.
  { intros label. unfold getPrediction; cbn [from_option id].
    fold (requestOf model prompt responseFormat timestamp storeCompletions).
    rewrite Hrun. discriminate. }
  split; [reflexivity |]. split.
  - rewrite callsOf_retriedAttempts. lia.
  - rewrite sleepsOf_retriedAttempts. now rewrite Z2Nat.id by lia.
Qed.

(** C10. With a budget of at least one, the [throw] that follows the
    loop is never reached: the call ends inside the loop, either with the
    label parsed at some attempt or with the error caught at the last
    attempt and rethrown. *)
Theorem getPrediction_ends_in_loop (retries : Z) :
  1 <= retries ->
  let result := snd (getPrediction remote model prompt responseFormat
                       timestamp storeCompletions (Some retries)) in
  result <> Throw ErrAllRetriesFailed
  /\ ((exists k p,
         1 <= k <= retries
         /\ tryBody (remote k) = ([EvLogParsed p], Return (parsed_variety p))
         /\ result = Return (parsed_variety p))
      \/ (exists e, failure (remote retries) = Some e /\ result = Throw e)).
Proof.
  intros Hge result. subst result. unfold getPrediction; cbn [from_option id].
  fold (requestOf model prompt responseFormat timestamp storeCompletions).
  destruct (attemptLoop_outcome remote req retries (Z.to_nat (retries - 1)) 1)
    as [(k & p & Hk & _ & Hp & Hres) | (e & _ & He & Hres)]; [lia | |].
  - rewrite Hres. split; [discriminate |].
    left. exists k, p. auto.
  - rewrite Hres. split.
    + intros [= ->]. now apply (failure_not_exhausted (remote retries)).
    + right. exists e. auto.
Qed.

End GetPredictionClaims.

(** Two failed attempts and an answer at the third, within a budget of
    three: the label is returned after pauses of 2 s and 4 s. *)
Example getPrediction_third_attempt_succeeds :
  let run := Step2.getPrediction Examples.thirdTimeLucky "gpt-4o-mini"
               "prompt" Examples.format "11-03-07-15" None None in
  snd run = Return "Merlot"
  /\ callsOf (fst run) = 3%nat
  /\ sleepsOf (fst run) = [2000; 4000].
Proof. vm_compute. repeat split. Qed.

(** C1, as the claim states it, fails: asked with a budget of three, a
    model that refuses is called three times, after pauses of 2 s and
    4 s, before the refusal reaches the caller. *)
Lemma getPrediction_refusal_single_attempt_counterexample :
  let run := Step2.getPrediction Examples.alwaysRefuses "gpt-4o" "prompt"
               Examples.format "11-03-07-15" None (Some 3) in
  explicitRefusal (Examples.alwaysRefuses 1) = true
  /\ callsOf (fst run) = 3%nat
  /\ sleepsOf (fst run) = [2000; 4000]
  /\ snd run = Throw ErrModelRefused.
Proof. vm_compute. repeat split. Qed.

Lemma getPrediction_refusal_retried_witness :
  1 <= 3
  /\ explicitRefusal (Examples.alwaysRefuses 1) = true
  /\ callsOf (fst (Step2.getPrediction Examples.alwaysRefuses "gpt-4o"
                     "prompt" Examples.format "11-03-07-15" None (Some 3)))
     = 3%nat.
Proof.
  split; [lia |]. split; [reflexivity |].
  destruct (getPrediction_refusal_retried Examples.alwaysRefuses "gpt-4o"
              "prompt" "11-03-07-15" Examples.format None 3)
    as (_ & _ & Hall); [lia | reflexivity |].
  rewrite Hall; [reflexivity |].
  intros k _. reflexivity.
Defined.

Lemma getPrediction_exhausted_witness :
  1 <= 3
  /\ (forall k, 1 <= k <= 3 -> failure (Examples.alwaysDown k) <> None)
  /\ exists e trace,
       Step2.getPrediction Examples.alwaysDown "gpt-4o-mini" "prompt"
         Examples.format "11-03-07-15" None (Some 3) = (trace, Throw e)
       /\ sleepsOf trace = [2000; 4000].
Proof.
  split; [lia |]. split; [intros k _; discriminate |].
  destruct (getPrediction_exhausted Examples.alwaysDown "gpt-4o-mini"
              "prompt" "11-03-07-15" Examples.format None 3)
    as (e & trace & Hrun & _ & _ & _ & _ & Hsleeps);
    [lia | intros k _; discriminate |].
  exists e, trace. split; [exact Hrun | exact Hsleeps].
Defined.

Lemma getPrediction_ends_in_loop_witness :
  1 <= 3
  /\ snd (Step2.getPrediction Examples.thirdTimeLucky "gpt-4o" "prompt"
            Examples.format "11-03-07-15" None (Some 3))
     <> Throw ErrAllRetriesFailed.
Proof.
  split; [lia |].
  apply (getPrediction_ends_in_loop Examples.thirdTimeLucky "gpt-4o"
           "prompt" "11-03-07-15" Examples.format None 3).
  lia.
Defined.

(** ** The two readers *)

Section ReaderClaims.
Context `{JsHost}.

(** The type guard, on a mapped row, only depends on the first two
    columns: the other fields were made strings by the mapping. *)
Lemma validateWinePredictionRecord_mapRecord (record : list JsValue) :
  Step3.validateWinePredictionRecord (Step3.mapRecord record)
  = (String.eqb (typeof (js_index record 0)) "number"
     || String.eqb (typeof (js_index record 0)) "string")
    && String.eqb (typeof (js_index record 1)) "string".
Proof.
  unfold Step3.validateWinePredictionRecord, Step3.mapRecord. cbn.
  now rewrite !andb_true_r.
Qed.

(** Every row that passes the guard has the static view the guard
    promises. *)
Lemma narrow_mapRecord_valid (record : list JsValue) :
  Step3.validateWinePredictionRecord (Step3.mapRecord record) = true ->
  exists p, Step3.narrow (Step3.mapRecord record) = Some p.
Proof.
  rewrite validateWinePredictionRecord_mapRecord.
  intros [_ Hmodel]%andb_prop.
  unfold Step3.narrow, Step3.mapRecord. cbn.
  destruct (js_index record 1); try discriminate. eauto.
Qed.

Lemma predictions_loop (rows : list (list JsValue)) :
  forall valid,
    fold_left Step3.onEvent (map Step3.SData rows)
      {| Step3.validRecords := valid; Step3.settled := None |}
    = {| Step3.validRecords := valid ++ validPredictions rows;
         Step3.settled := None |}.
Proof.
  unfold validPredictions.
  induction rows as [| row rows IH]; intros valid; simpl.
  - now rewrite app_nil_r.
  - destruct (Step3.validateWinePredictionRecord (Step3.mapRecord row)).
    + rewrite IH. simpl. now rewrite <- app_assoc.
    + apply IH.
Qed.

Lemma dataset_loop (rows : list (gmap string JsValue)) :
  forall valid,
    fold_left Step2.onData rows valid
    = valid ++ map toWineRecord (List.filter hasRequiredFields rows).
Proof.
  induction rows as [| row rows IH]; intros valid; simpl.
  - now rewrite app_nil_r.
  - unfold Step2.onData at 2. fold (hasRequiredFields row).
    fold (toWineRecord row).
    destruct (hasRequiredFields row); rewrite IH; simpl.
    + now rewrite <- app_assoc.
    + reflexivity.
Qed.

(** C3, as the code has it.  The dataset reader of [main] returns
    exactly the rows that have their required fields, in file order,
    however many there are.  [readPredictionsFile], on a file that
    parses without a stream error, returns exactly the rows that pass
    its type guard, in file order, when there is at least one, and
    fails with 'No valid records found' when there is none. *)
Theorem readers_keep_valid_rows
    (rows : list (gmap string JsValue))
    (fs : string -> option (list Step3.StreamEvent)) (filePath : string)
    (predictionRows : list (list JsValue)) :
  fs filePath = Some (map Step3.SData predictionRows) ->
  (Step2.collectValidRecords rows
     = map toWineRecord (List.filter hasRequiredFields rows)
   /\ length (Step2.collectValidRecords rows)
      = length (List.filter hasRequiredFields rows))
  /\ (validPredictions predictionRows <> [] ->
      Step3.readPredictionsFile fs filePath
      = Return (validPredictions predictionRows))
  /\ (validPredictions predictionRows = [] ->
      Step3.readPredictionsFile fs filePath
      = Throw (ErrNoValidRecords filePath)).
Proof.
  intros Hfile. split; [| split].
  - unfold Step2.collectValidRecords. rewrite dataset_loop. simpl.
    split; [reflexivity | apply length_map].
  - intros Hsome. unfold Step3.readPredictionsFile. rewrite Hfile.
    rewrite predictions_loop. unfold Step3.onEnd. simpl.
    destruct (validPredictions predictionRows); [congruence | reflexivity].
  - intros Hnone. unfold Step3.readPredictionsFile. rewrite Hfile.
    rewrite predictions_loop. unfold Step3.onEnd. simpl.
    now rewrite Hnone.
Qed.

End ReaderClaims.

(** C3, as the claim states it, fails for K = 0: of a predictions file
    whose only row is malformed, [readPredictionsFile] does not return
    the empty list of records; it fails. *)
Lemma readPredictionsFile_no_valid_row_counterexample :
  validPredictions (H := exampleHost) [Examples.rowWithoutId] = []
  /\ Step3.readPredictionsFile Examples.onlyMalformed "predictions.csv"
     = Throw (ErrNoValidRecords "predictions.csv")
  /\ Step3.readPredictionsFile Examples.onlyMalformed "predictions.csv"
     <> Return [].
Proof. vm_compute. repeat split. discriminate. Qed.

Lemma readers_keep_valid_rows_witness :
  Examples.mixedFile "predictions.csv"
  = Some (map Step3.SData [Examples.rowWithoutId; Examples.completeRow])
  /\ Step3.readPredictionsFile Examples.mixedFile "predictions.csv"
     = Return [Step3.mapRecord Examples.completeRow].
Proof.
  split; [reflexivity |].
  destruct (readers_keep_valid_rows (H := exampleHost) []
              Examples.mixedFile "predictions.csv"
              [Examples.rowWithoutId; Examples.completeRow] eq_refl)
    as (_ & Hsome & _).
  apply Hsome. discriminate.
Defined.

(** ** step2: [processBatch] *)

Section ProcessBatchClaims.
Context `{JsHost}.
Import Step2.

Lemma map_imap {A B C} (g : B -> C) (l : list A) :
  forall f : nat -> A -> B, map g (imap f l) = imap (fun i a => g (f i a)) l.
Proof.
  induction l as [| a l IH]; intros f; simpl; [reflexivity |].
  f_equal. apply IH.
Qed.

Lemma processRecord_entry (env : BatchEnv) varieties startIdx model timestamp
    storeCompletions responseFormat index record :
  snd (processRecord (remoteFor env index) (nowFor env index) varieties
         startIdx model timestamp storeCompletions responseFormat index record)
  = recordEntry env varieties startIdx model timestamp storeCompletions
      responseFormat index record.
Proof.
  unfold processRecord, recordEntry.
  destruct (getPrediction _ _ _ _ _ _ _) as [trace [prediction | error]];
    reflexivity.
Qed.

(** The task of a failed record ends by logging the error. *)
Lemma processRecord_failure_logged (env : BatchEnv) varieties startIdx model
    timestamp storeCompletions responseFormat index record trace error :
  getPrediction (remoteFor env index) model (generatePrompt record varieties)
    responseFormat timestamp (Some storeCompletions) None
  = (trace, Throw error) ->
  processRecord (remoteFor env index) (nowFor env index) varieties
    startIdx model timestamp storeCompletions responseFormat index record
  = (trace ++ [EvErrorProcessing (startIdx + Z.of_nat index) error], None).
Proof. unfold processRecord. now intros ->. Qed.

(** Kept entries carry increasing record ids, from [base] on. *)
Lemma kept_entries_sorted (l : list WineRecord) :
  forall (g : nat -> WineRecord -> option PredictionResult) (base : Z),
    (forall i a r, g i a = Some r -> pr_recordId r = base + Z.of_nat i) ->
    StronglySorted Z.lt (map pr_recordId (filterNotNull (imap g l)))
    /\ List.Forall (fun id => base <= id)
         (map pr_recordId (filterNotNull (imap g l))).
Proof.
  unfold filterNotNull.
  induction l as [| a l IH]; intros g base Hid; simpl.
  - split; constructor.
  - destruct (IH (fun i => g (S i)) (base + 1)) as [Hsorted Hlow].
    { intros i b r Hr. rewrite (Hid _ _ _ Hr). lia. }
    destruct (g 0%nat a) as [r |] eqn:Hg; simpl.
    + rewrite (Hid _ _ _ Hg), Z.add_0_r. split.
      * constructor; [exact Hsorted |].
        eapply List.Forall_impl; [| exact Hlow]. intros id Hle. simpl in Hle. lia.
      * constructor; [lia |].
        eapply List.Forall_impl; [| exact Hlow]. intros id Hle. simpl in Hle. lia.
    + split; [exact Hsorted |].
      eapply List.Forall_impl; [| exact Hlow]. intros id Hle. simpl in Hle. lia.
Qed.

(** C7. Once the varieties are loaded, a batch gives every record its
    entry, the prediction result or [null], at the record's index, and
    returns the results that are not [null] in that order; the promise
    of the batch is fulfilled whatever records fail. *)
Theorem processBatch_keeps_successes (env : BatchEnv)
    (records : list WineRecord) (startIdx : Z) (model timestamp : string)
    (storeCompletions : bool) (responseFormat : ResponseFormat)
    (varieties : list string) :
  varietiesOutcome env = Return varieties ->
  let entry := recordEntry env varieties startIdx model timestamp
                 storeCompletions responseFormat in
  let batch := processBatch env records startIdx model timestamp
                 storeCompletions responseFormat in
  map snd (batchOutcomes env varieties records startIdx model timestamp
             storeCompletions responseFormat)
  = imap entry records
  /\ exists results,
       snd batch = Return results
       /\ results = filterNotNull (imap entry records)
       /\ (forall r, In r results <->
             exists index record,
               records !! index = Some record /\ entry index record = Some r)
       /\ StronglySorted Z.lt (map pr_recordId results).
Proof.
  intros Hvar entry batch.
  assert (map snd (batchOutcomes env varieties records startIdx model timestamp
                     storeCompletions responseFormat)
          = imap entry records) as Hentries.
  { unfold batchOutcomes. rewrite map_imap. apply imap_ext.
    intros index record _. apply processRecord_entry. }
  split; [exact Hentries |].
  exists (filterNotNull (imap entry records)).
  split; [| split; [reflexivity | split]].
  - subst batch. unfold processBatch. rewrite Hvar. cbn [snd].
    now rewrite Hentries.
  - intros r. unfold filterNotNull.
    rewrite <- list_elem_of_In, list_elem_of_omap. split.
    + intros (o & Ho & Hr). simpl in Hr. subst o.
      apply elem_of_lookup_imap in Ho as (index & record & Heq & Hlook).
      exists index, record. split; [exact Hlook | now symmetry].
    + intros (index & record & Hlook & Hr).
      exists (Some r). split; [| reflexivity].
      rewrite <- Hr. now apply elem_of_lookup_imap_2.
  - apply (kept_entries_sorted records entry startIdx).
    intros i a r. unfold entry, recordEntry.
    destruct (snd _) as [prediction | error]; [| discriminate].
    now intros [= <-].
Qed.

End ProcessBatchClaims.

Lemma processBatch_keeps_successes_witness :
  Step2.varietiesOutcome Examples.secondFails = Return ["Merlot"; "Malbec"]
  /\ exists results,
       snd (Step2.processBatch (H := exampleHost) Examples.secondFails
              [Examples.wine "A"; Examples.wine "B"; Examples.wine "C"]
              100 "gpt-4o" "11-03-07-15" true Examples.format)
       = Return results
       /\ map Step2.pr_recordId results = [100; 102].
Proof.
  split; [reflexivity |].
  destruct (processBatch_keeps_successes (H := exampleHost)
              Examples.secondFails
              [Examples.wine "A"; Examples.wine "B"; Examples.wine "C"]
              100 "gpt-4o" "11-03-07-15" true Examples.format
              ["Merlot"; "Malbec"] eq_refl)
    as (_ & results & Hres & Heq & _).
  exists results. split; [exact Hres |].
  rewrite Heq. reflexivity.
Defined.

(** ** step2: the batch loop of [main] *)

Section BatchLoopClaims.
Context `{JsHost}.
Import Step2.

Lemma BATCH_SIZE_value : BATCH_SIZE = 50.
Proof. reflexivity. Qed.

Lemma Qfloor_per_batch (a : Z) :
  Qfloor (inject_Z a / inject_Z BATCH_SIZE) = a / 50.
Proof.
  rewrite BATCH_SIZE_value. unfold Qdiv, Qinv, Qmult, inject_Z. simpl.
  now rewrite Z.mul_1_r.
Qed.

(** [Math.ceil(a / BATCH_SIZE)] is the least number of batches of 50
    that hold [a] records. *)
Lemma Qceiling_per_batch (a n : Z) :
  50 * (n - 1) < a <= 50 * n ->
  Qceiling (inject_Z a / inject_Z BATCH_SIZE) = n.
Proof.
  intros Hn. unfold Qceiling.
  rewrite BATCH_SIZE_value. unfold Qdiv, Qinv, Qmult, Qopp, inject_Z. simpl.
  rewrite Z.mul_1_r. change (Z.pos (1 * 50)) with 50.
  pose proof (Z.div_mod (- a) 50 ltac:(lia)) as Hdm.
  pose proof (Z.mod_pos_bound (- a) 50 ltac:(lia)) as Hr.
  lia.
Qed.

Lemma batchLoop_unfold (sampledRecords : list WineRecord) (i : Z) :
  batchLoop sampledRecords i
  = if i <? Z.of_nat (length sampledRecords)
    then batchAt sampledRecords i
           :: batchLoop sampledRecords (i + BATCH_SIZE)
    else [].
Proof.
  funelim (batchLoop sampledRecords i).
  - rewrite Hlt. reflexivity.
  - rewrite e. reflexivity.
Qed.

(** The batch number [j] (from 0) starts at index [i + 50 j], as long as
    that index is inside the list. *)
Lemma batchLoop_lookup (sampledRecords : list WineRecord) (j : nat) :
  forall i,
    batchLoop sampledRecords i !! j
    = if i + 50 * Z.of_nat j <? Z.of_nat (length sampledRecords)
      then Some (batchAt sampledRecords (i + 50 * Z.of_nat j))
      else None.
Proof.
  induction j as [| j IH]; intros i; rewrite batchLoop_unfold.
  - replace (i + 50 * Z.of_nat 0) with i by lia.
    destruct (i <? Z.of_nat (length sampledRecords)); reflexivity.
  - destruct (Z.ltb_spec i (Z.of_nat (length sampledRecords))) as [Hin | Hout].
    + cbn [lookup list_lookup]. rewrite IH, BATCH_SIZE_value.
      now replace (i + 50 + 50 * Z.of_nat j) with (i + 50 * Z.of_nat (S j))
        by lia.
    + destruct (Z.ltb_spec (i + 50 * Z.of_nat (S j))
                  (Z.of_nat (length sampledRecords))); [lia | reflexivity].
Qed.

Lemma slice_batch (sampledRecords : list WineRecord) (a : nat) :
  slice sampledRecords (Z.of_nat a) (Z.of_nat a + BATCH_SIZE)
  = firstn 50 (skipn a sampledRecords).
Proof.
  rewrite BATCH_SIZE_value.
  replace (Z.of_nat a + 50) with (Z.of_nat (a + 50)) by lia.
  rewrite slice_nat. f_equal. lia.
Qed.

Lemma batchLoop_concat (sampledRecords : list WineRecord) (n : nat) :
  forall a : nat,
    (length sampledRecords - a <= n)%nat ->
    concat (map batchRecords (batchLoop sampledRecords (Z.of_nat a)))
    = skipn a sampledRecords.
Proof.
  induction n as [| n IH]; intros a Hn; rewrite batchLoop_unfold;
    destruct (Z.ltb_spec (Z.of_nat a) (Z.of_nat (length sampledRecords)))
      as [Hin | Hout];
    try lia; try (rewrite skipn_all2 by lia; reflexivity).
  cbn [map concat batchRecords batchAt]. rewrite slice_batch.
  rewrite BATCH_SIZE_value.
  replace (Z.of_nat a + 50) with (Z.of_nat (a + 50)) by lia.
  rewrite IH by lia.
  replace (a + 50)%nat with (50 + a)%nat by lia.
  rewrite <- skipn_skipn. apply firstn_skipn.
Qed.

(** The number of batches, against the number of records. *)
Lemma batchLoop_length (sampledRecords : list WineRecord) :
  let n := Z.of_nat (length (batchLoop sampledRecords 0)) in
  50 * (n - 1) < Z.of_nat (length sampledRecords) <= 50 * n.
Proof.
  intros n. subst n.
  set (batches := batchLoop sampledRecords 0).
  assert (forall j : nat,
             (j < length batches)%nat
             <-> 50 * Z.of_nat j < Z.of_nat (length sampledRecords)) as Hj.
  { intros j. rewrite <- lookup_lt_is_Some. unfold batches.
    rewrite batchLoop_lookup, Z.add_0_l.
    destruct (Z.ltb_spec (50 * Z.of_nat j) (Z.of_nat (length sampledRecords))).
    - split; [auto | eauto].
    - split; [intros [b [=]] | lia]. }
  split.
  - destruct (length batches) as [| m] eqn:Hm; [lia |].
    pose proof (proj1 (Hj m) ltac:(lia)). lia.
  - pose proof (Hj (length batches)) as Hend.
    destruct (Z.le_gt_cases (Z.of_nat (length sampledRecords))
                (50 * Z.of_nat (length batches))); [assumption |].
    apply proj2 in Hend. specialize (Hend ltac:(lia)). lia.
Qed.

Lemma batchLoop_lookup_start (sampledRecords : list WineRecord) (j : nat) :
  batchLoop sampledRecords 0 !! j
  = if (50 * j <? length sampledRecords)%nat
    then Some (batchAt sampledRecords (Z.of_nat (50 * j)))
    else None.
Proof.
  rewrite batchLoop_lookup.
  replace (0 + 50 * Z.of_nat j) with (Z.of_nat (50 * j)) by lia.
  destruct (Z.ltb_spec (Z.of_nat (50 * j)) (Z.of_nat (length sampledRecords)));
    destruct (Nat.ltb_spec (50 * j) (length sampledRecords));
    try lia; reflexivity.
Qed.

Lemma batchAt_records (sampledRecords : list WineRecord) (a : nat) :
  batchRecords (batchAt sampledRecords (Z.of_nat a))
  = firstn 50 (skipn a sampledRecords).
Proof. apply slice_batch. Qed.

Lemma batchAt_start (sampledRecords : list WineRecord) (i : Z) :
  batchStart (batchAt sampledRecords i) = i.
Proof. reflexivity. Qed.

Lemma batchAt_number (sampledRecords : list WineRecord) (i : Z) :
  batchNumber (batchAt sampledRecords i) = i / 50 + 1.
Proof. unfold batchAt, batchNumber. now rewrite Qfloor_per_batch. Qed.

Lemma batchAt_total (sampledRecords : list WineRecord) (i : Z) :
  totalBatches (batchAt sampledRecords i)
  = Qceiling (inject_Z (Z.of_nat (length sampledRecords))
              / inject_Z BATCH_SIZE).
Proof. reflexivity. Qed.

(** C6. The loop of [main] cuts the sampled records into
    ceil(B / BATCH_SIZE) batches, with BATCH_SIZE = floor(200 / 4) = 50;
    the batches, in order, make up the list again, and every position of
    the list lies in exactly one batch, which holds its record. *)
Theorem batchLoop_partition (sampledRecords : list WineRecord) :
  let batches := batchLoop sampledRecords 0 in
  BATCH_SIZE = 50
  /\ Z.of_nat (length batches)
     = Qceiling (inject_Z (Z.of_nat (length sampledRecords))
                 / inject_Z BATCH_SIZE)
  /\ concat (map batchRecords batches) = sampledRecords
  /\ (forall j b,
        batches !! j = Some b ->
        batchStart b = BATCH_SIZE * Z.of_nat j
        /\ batchNumber b = Z.of_nat j + 1
        /\ totalBatches b = Z.of_nat (length batches)
        /\ (1 <= length (batchRecords b) <= 50)%nat)
  /\ (forall k record,
        sampledRecords !! k = Some record ->
        exists j b,
          batches !! j = Some b
          /\ inBatch k b
          /\ batchRecords b !! (k - Z.to_nat (batchStart b))%nat = Some record
          /\ forall j' b',
               batches !! j' = Some b' -> inBatch k b' -> j' = j).
Proof.
  intros batches.
  pose proof (batchLoop_length sampledRecords) as Hcount.
  cbv zeta in Hcount. fold batches in Hcount.
  assert (Z.of_nat (length batches)
          = Qceiling (inject_Z (Z.of_nat (length sampledRecords))
                      / inject_Z BATCH_SIZE)) as Htotal.
  { symmetry. now apply Qceiling_per_batch. }
  split; [reflexivity |]. split; [exact Htotal |]. split; [| split].
  - unfold batches. change 0 with (Z.of_nat 0).
    now rewrite (batchLoop_concat sampledRecords (length sampledRecords)) by lia.
  - intros j b Hb. unfold batches in Hb.
    rewrite batchLoop_lookup_start in Hb.
    destruct (Nat.ltb_spec (50 * j) (length sampledRecords)) as [Hin |];
      [| discriminate].
    assert (b = batchAt sampledRecords (Z.of_nat (50 * j))) as ->
      by congruence.
    rewrite batchAt_records, batchAt_start, batchAt_number, batchAt_total.
    rewrite BATCH_SIZE_value at 1.
    split; [lia |]. split.
    { replace (Z.of_nat (50 * j)) with (Z.of_nat j * 50) by lia.
      now rewrite Z.div_mul by lia. }
    split; [now rewrite Htotal |].
    rewrite length_firstn, length_skipn. lia.
  - intros k record Hk.
    pose proof (lookup_lt_Some _ _ _ Hk) as Hlt.
    pose proof (Nat.div_mod_eq k 50) as Hdiv.
    pose proof (Nat.mod_upper_bound k 50 ltac:(lia)) as Hmod.
    exists (k / 50)%nat, (batchAt sampledRecords (Z.of_nat (50 * (k / 50)))).
    split; [| split; [| split]].
    + unfold batches. rewrite batchLoop_lookup_start.
      destruct (Nat.ltb_spec (50 * (k / 50)) (length sampledRecords));
        [reflexivity | lia].
    + unfold inBatch. rewrite batchAt_records, batchAt_start.
      rewrite length_firstn, length_skipn. lia.
    + rewrite batchAt_records, batchAt_start, Nat2Z.id.
      rewrite lookup_take_lt by lia. rewrite lookup_drop.
      now replace (50 * (k / 50) + (k - 50 * (k / 50)))%nat with k by lia.
    + intros j' b' Hb' Hin'. unfold batches in Hb'.
      rewrite batchLoop_lookup_start in Hb'.
      destruct (Nat.ltb_spec (50 * j') (length sampledRecords));
        [| discriminate].
      assert (b' = batchAt sampledRecords (Z.of_nat (50 * j'))) as ->
        by congruence.
      unfold inBatch in Hin'.
      rewrite batchAt_records, batchAt_start in Hin'.
      rewrite length_firstn, length_skipn in Hin'. lia.
Qed.

End BatchLoopClaims.

(** ** run_evaluation.ts: the command-line handler *)

Section CliClaims.
Import RunEvaluation.
Variable parseInt : option string -> option Z.
Variable runEvaluation : EvaluationConfig -> Completion unit.

Lemma orDefault_nonempty (v : option string) (d : string) :
  String.eqb d EmptyString = false ->
  String.eqb (orDefault v d) EmptyString = false.
Proof.
  intros Hd. unfold orDefault. destruct v as [s |]; [| exact Hd].
  destruct (String.eqb s EmptyString) eqn:Hs; assumption.
Qed.

(** The test on a missing model never succeeds: the model has been given
    its default before the test. *)
Lemma cli_guard_dead (argv : list string) :
  stderr (cli parseInt runEvaluation argv) <> [PleaseProvideModel].
Proof.
  unfold cli.
  rewrite (orDefault_nonempty (argv !! 2%nat) "gpt-4o-mini" eq_refl).
  destruct (runEvaluation _); discriminate.
Qed.

(** C8 on the code.  Started without a comparison model, the handler
    does not report a missing argument: it runs the evaluation for
    'gpt-4o-mini', and the process is ended with code 1 only if that
    evaluation fails. *)
Theorem cli_missing_model_runs_default :
  let argv := ["node"; "run_evaluation.ts"] in
  argv !! 2%nat = None
  /\ cli parseInt runEvaluation argv
     = match runEvaluation
               {| comparisonModel := "gpt-4o-mini";
                  numSamples := match parseInt None with
                                | Some n => if n =? 0 then 3 else n
                                | None => 3
                                end;
                  datasets := ["train"; "validation"] |} with
       | Return _ => {| stderr := []; exitCode := None |}
       | Throw error =>
           {| stderr := [ErrorDuringEvaluation error]; exitCode := Some 1 |}
       end
  /\ forall anyArgv,
       stderr (cli parseInt runEvaluation anyArgv) <> [PleaseProvideModel].
Proof.
  split; [reflexivity |]. split; [reflexivity |]. apply cli_guard_dead.
Qed.

End CliClaims.

(** * Further properties of the code *)

(** ** Strings *)

Lemma string_length_append (s t : string) :
  String.length (String.append s t) = (String.length s + String.length t)%nat.
Proof. induction s as [| c s IH]; simpl; [reflexivity | now rewrite IH]. Qed.

Lemma string_append_assoc (s t u : string) :
  String.append (String.append s t) u = String.append s (String.append t u).
Proof.
  induction s as [| c s IH]; [reflexivity |].
  change (String c (String.append (String.append s t) u)
          = String c (String.append s (String.append t u))).
  now rewrite IH.
Qed.

(** Two concatenations that agree and start with parts of the same
    length agree part by part. *)
Lemma string_append_inj_length (s s' t t' : string) :
  String.length s = String.length s' ->
  String.append s t = String.append s' t' ->
  s = s' /\ t = t'.
Proof.
  revert s'. induction s as [| c s IH]; intros [| c' s'] Hlen Heq;
    try discriminate.
  - now split.
  - simpl in Hlen, Heq. injection Heq as -> Heq.
    destruct (IH s' ltac:(lia) Heq) as [-> ->]. now split.
Qed.


Lemma startsWith_spec (prefix : string) :
  forall s,
    startsWith s prefix = true <-> exists b, s = String.append prefix b.
Proof.
  induction prefix as [| c prefix IH]; intros s.
  - split; [intros _; now exists s | intros _; now destruct s].
  - destruct s as [| d s]; simpl.
    + split; [discriminate | intros [b [=]]].
    + rewrite andb_true_iff, IH. split.
      * intros [Hc [b ->]]. apply Ascii.eqb_eq in Hc as ->. now exists b.
      * intros [b [= -> ->]]. split; [apply Ascii.eqb_refl | now exists b].
Qed.

(** [includes] finds exactly the substrings. *)
Lemma includes_spec (sub : string) :
  forall s,
    includes s sub = true
    <-> exists a b, s = String.append a (String.append sub b).
Proof.
  induction s as [| c s IH].
  - change (includes EmptyString sub)
      with (startsWith EmptyString sub || false).
    rewrite orb_false_r, startsWith_spec. split.
    + intros [b Hb]. now exists EmptyString, b.
    + intros ([| d a] & b & Hb); [now exists b | discriminate].
  - change (includes (String c s) sub)
      with (startsWith (String c s) sub || includes s sub).
    rewrite orb_true_iff, startsWith_spec, IH. split.
    + intros [[b Hb] | (a & b & ->)].
      * now exists EmptyString, b.
      * now exists (String c a), b.
    + intros ([| d a] & b & Hb).
      * left. now exists b.
      * right. injection Hb as -> ->. now exists a, b.
Qed.

(** ** step2: more on [getPrediction] *)

Section RetryLoopMore.
Import Step2.

Lemma callsOf_call req trace : callsOf (EvCall req :: trace) = S (callsOf trace).
Proof. reflexivity. Qed.

Lemma callsOf_sleep ms trace : callsOf (EvSleep ms :: trace) = callsOf trace.
Proof. reflexivity. Qed.

Lemma sleepsOf_call req trace : sleepsOf (EvCall req :: trace) = sleepsOf trace.
Proof. reflexivity. Qed.

Lemma sleepsOf_sleep ms trace :
  sleepsOf (EvSleep ms :: trace) = ms :: sleepsOf trace.
Proof. reflexivity. Qed.

(** Failures from [attempt] up to [k - 1], then a parsed answer at [k]. *)
Lemma attemptLoop_first_success remote req retries (n : nat) :
  forall attempt k p,
    k = attempt + Z.of_nat n ->
    k <= retries ->
    (forall j, attempt <= j < k -> failure (remote j) <> None) ->
    tryBody (remote k) = ([EvLogParsed p], Return (parsed_variety p)) ->
    attemptLoop remote req retries attempt
    = (retriedAttempts req attempt n ++ [EvCall req; EvLogParsed p],
       Return (parsed_variety p)).
Proof.
  induction n as [| n IH]; intros attempt k p Hk Hle Hfail Hok.
  - assert (k = attempt) as -> by lia.
    now apply attemptLoop_success.
  - destruct (failure (remote attempt)) as [e |] eqn:Hf.
    2:{ exfalso. apply (Hfail attempt); [lia | exact Hf]. }
    rewrite (attemptLoop_fail_retry _ _ _ _ e) by (lia || assumption).
    rewrite (IH (attempt + 1) k p); try assumption; try lia.
    + reflexivity.
    + intros j Hj. apply Hfail. lia.
Qed.

(** Calls and pauses of the loop, whatever the remote side answers. *)
Lemma attemptLoop_calls_sleeps remote req retries (n : nat) :
  forall attempt,
    Z.to_nat (retries + 1 - attempt) = n ->
    let trace := fst (attemptLoop remote req retries attempt) in
    (callsOf trace <= n)%nat
    /\ (attempt <= retries -> (1 <= callsOf trace)%nat)
    /\ sleepsOf trace
       = map (fun k => 2 ^ k * 1000)
           (seqZ attempt (Z.of_nat (callsOf trace) - 1)).
Proof.
  induction n as [| n IH]; intros attempt Hn trace; subst trace.
  - rewrite attemptLoop_past_budget by lia. cbn.
    split; [lia |]. split; [lia | reflexivity].
  - assert (attempt <= retries) as Hle by lia.
    destruct (failure (remote attempt)) as [e |] eqn:Hf.
    + destruct (Z.eq_dec attempt retries) as [-> | Hne].
      * rewrite (attemptLoop_fail_last _ _ _ e) by assumption. cbn.
        split; [lia |]. split; [lia | reflexivity].
      * rewrite (attemptLoop_fail_retry _ _ _ _ e) by (lia || assumption).
        cbn [fst].
        destruct (IH (attempt + 1) ltac:(lia)) as (Hmax & Hmin & Hsleeps).
        cbv zeta in Hmax, Hmin, Hsleeps.
        specialize (Hmin ltac:(lia)).
        rewrite callsOf_call, callsOf_sleep, sleepsOf_call, sleepsOf_sleep.
        split; [lia |]. split; [lia |].
        rewrite Hsleeps.
        rewrite (seqZ_cons attempt) by lia. cbn [map]. do 3 f_equal; lia.
    + apply failure_None in Hf as [p Hp].
      rewrite (attemptLoop_success _ _ _ _ p) by assumption. cbn.
      split; [lia |]. split; [lia | reflexivity].
Qed.

(** The pauses of a backoff add up to a difference of powers of two. *)
Lemma backoff_sum (m : nat) :
  forall a,
    0 <= a ->
    fold_right Z.add 0
      (map (fun k => 2 ^ k * 1000) (seqZ a (Z.of_nat m)))
    = (2 ^ (a + Z.of_nat m) - 2 ^ a) * 1000.
Proof.
  induction m as [| m IH]; intros a Ha.
  - replace (a + Z.of_nat 0) with a by lia. rewrite Z.sub_diag. reflexivity.
  - rewrite seqZ_cons by lia. cbn [map fold_right].
    replace (Z.pred (Z.of_nat (S m))) with (Z.of_nat m) by lia.
    rewrite IH by lia.
    replace (Z.succ a + Z.of_nat m) with (a + Z.of_nat (S m)) by lia.
    replace (Z.succ a) with (a + 1) by lia.
    rewrite (Z.pow_add_r 2 a 1) by lia. lia.
Qed.

(** Every remote call of the loop sends the same request. *)
Lemma attemptLoop_same_request remote req retries (n : nat) :
  forall attempt r,
    Z.to_nat (retries + 1 - attempt) = n ->
    In (EvCall r) (fst (attemptLoop remote req retries attempt)) ->
    r = req.
Proof.
  induction n as [| n IH]; intros attempt r Hn.
  - rewrite attemptLoop_past_budget by lia. intros [].
  - assert (attempt <= retries) as Hle by lia.
    destruct (failure (remote attempt)) as [e |] eqn:Hf.
    + destruct (Z.eq_dec attempt retries) as [-> | Hne].
      * rewrite (attemptLoop_fail_last _ _ _ e) by assumption.
        intros [[= <-] | []]. reflexivity.
      * rewrite (attemptLoop_fail_retry _ _ _ _ e) by (lia || assumption).
        cbn [fst]. intros [[= <-] | [[=] | Hin]]; [reflexivity |].
        apply (IH (attempt + 1)); [lia | exact Hin].
    + apply failure_None in Hf as [p Hp].
      rewrite (attemptLoop_success _ _ _ _ p) by assumption.
      intros [[= <-] | [[=] | []]]. reflexivity.
Qed.

(** With the default budget: one to three calls, at most six seconds
    of pauses. *)
Lemma getPrediction_backoff_budget_core remote model prompt timestamp
    responseFormat storeCompletions :
  let trace := fst (getPrediction remote model prompt responseFormat
                      timestamp storeCompletions None) in
  (1 <= callsOf trace <= 3)%nat /\ 0 <= totalPause trace <= 6000.
Proof.
  intros trace. subst trace. unfold getPrediction. cbn [from_option id].
  destruct (attemptLoop_calls_sleeps remote
              (buildRequest model prompt responseFormat timestamp
                 (default true storeCompletions))
              3 3 1 eq_refl)
    as (Hmax & Hmin & Hsleeps).
  cbv zeta in Hmax, Hmin, Hsleeps. specialize (Hmin ltac:(lia)).
  set (trace := fst (attemptLoop _ _ _ _)) in *.
  unfold totalPause. rewrite Hsleeps.
  split; [lia |].
  destruct (callsOf trace) as [| [| [| [| c]]]]; try lia;
    vm_compute; split; discriminate.
Qed.

End RetryLoopMore.

Section GetPredictionMore.
Import Step2.
Variable remote : Z -> CallResult.
Variables model prompt timestamp : string.
Variable responseFormat : ResponseFormat.
Variable storeCompletions : option bool.

Local Abbreviation req :=
  (requestOf model prompt responseFormat timestamp storeCompletions).

(** X1. The label returned is that of the first attempt whose response
    carries a parsed payload: after [k - 1] failed attempts and their
    pauses, attempt [k] returns its label, whatever its refusal field
    says and whatever later attempts would have met. *)
Theorem getPrediction_first_success (retries k : Z) (message : Message)
    (others : list Message) (p : ParsedResponse) :
  1 <= k <= retries ->
  (forall j, 1 <= j < k -> failure (remote j) <> None) ->
  remote k = Completed (message :: others) ->
  parsed message = Some p ->
  getPrediction remote model prompt responseFormat timestamp
    storeCompletions (Some retries)
  = (retriedAttempts req 1 (Z.to_nat (k - 1)) ++ [EvCall req; EvLogParsed p],
     Return (parsed_variety p)).
Proof.
  intros Hk Hfail Hresp Hparsed.
  unfold getPrediction; cbn [from_option id].
  fold (requestOf model prompt responseFormat timestamp storeCompletions).
  apply (attemptLoop_first_success remote req retries (Z.to_nat (k - 1)) 1 k p);
    try lia; try assumption.
  unfold tryBody. now rewrite Hresp, Hparsed.
Qed.

(** X2. Whatever the remote side answers, a call with a budget of at
    least one makes between one and [budget] remote calls, pauses
    2^k seconds after each call but the last, and so pauses
    (2^calls - 2) seconds in all, at most (2^budget - 2) seconds:
    6 seconds with the default budget of three. *)
Theorem getPrediction_backoff_budget (retries : option Z) :
  let budget := default 3 retries in
  1 <= budget ->
  let trace := fst (getPrediction remote model prompt responseFormat
                      timestamp storeCompletions retries) in
  (1 <= callsOf trace)%nat
  /\ Z.of_nat (callsOf trace) <= budget
  /\ sleepsOf trace
     = map (fun k => 2 ^ k * 1000) (seqZ 1 (Z.of_nat (callsOf trace) - 1))
  /\ totalPause trace = (2 ^ Z.of_nat (callsOf trace) - 2) * 1000
  /\ totalPause trace <= (2 ^ budget - 2) * 1000.
Proof.
  intros budget Hbudget trace. subst trace. unfold getPrediction.
  fold budget.
  destruct (attemptLoop_calls_sleeps remote
              (buildRequest model prompt responseFormat timestamp
                 (default true storeCompletions))
              budget (Z.to_nat budget) 1 ltac:(lia))
    as (Hmax & Hmin & Hsleeps).
  cbv zeta in Hmax, Hmin, Hsleeps. specialize (Hmin Hbudget).
  set (trace := fst (attemptLoop _ _ _ _)) in *.
  assert (totalPause trace = (2 ^ Z.of_nat (callsOf trace) - 2) * 1000)
    as Htotal.
  { unfold totalPause. rewrite Hsleeps.
    replace (Z.of_nat (callsOf trace) - 1)
      with (Z.of_nat (callsOf trace - 1)) by lia.
    rewrite backoff_sum by lia.
    replace (1 + Z.of_nat (callsOf trace - 1))
      with (Z.of_nat (callsOf trace)) by lia.
    reflexivity. }
  split; [exact Hmin |]. split; [lia |]. split; [exact Hsleeps |].
  split; [exact Htotal |].
  rewrite Htotal.
  assert (2 ^ Z.of_nat (callsOf trace) <= 2 ^ budget)
    by (apply Z.pow_le_mono_r; lia).
  lia.
Qed.

(** X3. Every remote call of a [getPrediction] sends the same request:
    the given model, prompt and response format, with the completion
    stored only for the model 'gpt-4o' and only when storing was not
    turned off, and with the run's metadata exactly when it is stored. *)
Theorem getPrediction_requests (retries : option Z) (r : Request) :
  In (EvCall r)
     (fst (getPrediction remote model prompt responseFormat timestamp
             storeCompletions retries)) ->
  req_model r = model
  /\ req_system r = systemPrompt
  /\ req_user r = prompt
  /\ req_response_format r = responseFormat
  /\ (req_store r = true <-> model = "gpt-4o" /\ storeCompletions <> Some false)
  /\ req_metadata r
     = (if req_store r then Some ("wine_classification", timestamp) else None).
Proof.
  unfold getPrediction. intros Hin.
  apply (attemptLoop_same_request remote _ (default 3 retries)
           (Z.to_nat (default 3 retries + 1 - 1)) 1 r eq_refl) in Hin.
  subst r. unfold buildRequest. cbn [req_model req_system req_user
    req_response_format req_store req_metadata].
  do 4 (split; [reflexivity |]). split; [| reflexivity].
  rewrite andb_true_iff, String.eqb_eq.
  destruct storeCompletions as [[|] |]; cbn; split; intros [Hm Hs];
    split; congruence.
Qed.

End GetPredictionMore.

Lemma getPrediction_first_success_witness :
  Step2.getPrediction Examples.thirdTimeLucky "gpt-4o" "prompt"
    Examples.format "11-03-07-15" None (Some 3)
  = (retriedAttempts
       (requestOf "gpt-4o" "prompt" Examples.format "11-03-07-15" None) 1 2
       ++ [Step2.EvCall
             (requestOf "gpt-4o" "prompt" Examples.format "11-03-07-15" None);
           Step2.EvLogParsed {| Step2.parsed_variety := "Merlot" |}],
     Return "Merlot").
Proof.
  apply (getPrediction_first_success Examples.thirdTimeLucky "gpt-4o" "prompt"
           "11-03-07-15" Examples.format None 3 3
           (Examples.answering "Merlot") []
           {| Step2.parsed_variety := "Merlot" |}).
  - lia.
  - intros j Hj. unfold Examples.thirdTimeLucky.
    destruct (Z.ltb_spec j 3); [discriminate | lia].
  - reflexivity.
  - reflexivity.
Defined.

Lemma getPrediction_backoff_budget_witness :
  1 <= default 3 (@None Z)
  /\ totalPause (fst (Step2.getPrediction Examples.alwaysDown "gpt-4o"
                        "prompt" Examples.format "11-03-07-15" None None))
     <= 6000.
Proof.
  split; [cbn; lia |].
  apply (getPrediction_backoff_budget Examples.alwaysDown "gpt-4o" "prompt"
           "11-03-07-15" Examples.format None None).
  cbn; lia.
Defined.

Lemma getPrediction_requests_witness :
  Step2.req_store
    (requestOf "gpt-4o-mini" "prompt" Examples.format "11-03-07-15" None)
  = true
  <-> "gpt-4o-mini" = "gpt-4o" /\ @None bool <> Some false.
Proof.
  apply (getPrediction_requests Examples.alwaysDown "gpt-4o-mini" "prompt"
           "11-03-07-15" Examples.format None (Some 1)).
  left. reflexivity.
Defined.

(** ** step2: more on [processBatch] *)

Section ProcessBatchMore.
Context `{JsHost}.
Import Step2.

Lemma callsOf_logged trace recordId e :
  callsOf (trace ++ [EvErrorProcessing recordId e]) = callsOf trace.
Proof.
  unfold callsOf. rewrite List.filter_app, length_app. simpl. lia.
Qed.

Lemma sleepsOf_logged trace recordId e :
  sleepsOf (trace ++ [EvErrorProcessing recordId e]) = sleepsOf trace.
Proof. unfold sleepsOf. rewrite omap_app. simpl. apply app_nil_r. Qed.

(** The result of a batch whose varieties have loaded. *)
Lemma processBatch_results (env : BatchEnv) records startIdx model timestamp
    storeCompletions responseFormat varieties :
  varietiesOutcome env = Return varieties ->
  snd (processBatch env records startIdx model timestamp storeCompletions
         responseFormat)
  = Return (filterNotNull
              (imap (recordEntry env varieties startIdx model timestamp
                       storeCompletions responseFormat) records)).
Proof.
  intros Hvar. unfold processBatch. rewrite Hvar. cbn [snd].
  unfold batchOutcomes. rewrite map_imap. do 2 f_equal.
  apply imap_ext. intros index record _. apply processRecord_entry.
Qed.

Lemma all_entries_kept (l : list WineRecord) :
  forall (g : nat -> WineRecord -> option PredictionResult) (base : Z),
    (forall i a, l !! i = Some a ->
       exists r, g i a = Some r
                 /\ pr_recordId r = base + Z.of_nat i
                 /\ pr_actual_variety r = variety a) ->
    map pr_recordId (filterNotNull (imap g l)) = seqZ base (Z.of_nat (length l))
    /\ map pr_actual_variety (filterNotNull (imap g l)) = map variety l.
Proof.
  induction l as [| a l IH]; intros g base Hall.
  - split; reflexivity.
  - destruct (Hall 0%nat a eq_refl) as (r & Hr & Hid & Htruth).
    destruct (IH (fun i => g (S i)) (base + 1)) as [Hids Htruths].
    { intros i b Hb. destruct (Hall (S i) b Hb) as (r' & Hr' & Hid' & Ht').
      exists r'. split; [exact Hr' |]. split; [lia | exact Ht']. }
    assert (filterNotNull (imap g (a :: l))
            = r :: filterNotNull (imap (fun i => g (S i)) l)) as ->.
    { unfold filterNotNull. simpl. now rewrite Hr. }
    cbn [map length]. split.
    + rewrite seqZ_cons by lia.
      replace (Z.pred (Z.of_nat (S (length l)))) with (Z.of_nat (length l))
        by lia.
      replace (Z.succ base) with (base + 1) by lia.
      f_equal; [lia | exact Hids].
    + f_equal; [exact Htruth | exact Htruths].
Qed.

(** X4. When the varieties load and the request of every record ends
    with a label, the batch returns one result per record, in order,
    numbered from [startIdx] on, each with the variety of its record as
    ground truth. *)
Theorem processBatch_all_succeed (env : BatchEnv)
    (records : list WineRecord) (startIdx : Z) (model timestamp : string)
    (storeCompletions : bool) (responseFormat : ResponseFormat)
    (varieties : list string) :
  varietiesOutcome env = Return varieties ->
  (forall index record,
      records !! index = Some record ->
      exists label,
        snd (getPrediction (remoteFor env index) model
               (generatePrompt record varieties) responseFormat timestamp
               (Some storeCompletions) None)
        = Return label) ->
  exists results,
    snd (processBatch env records startIdx model timestamp storeCompletions
           responseFormat)
    = Return results
    /\ length results = length records
    /\ map pr_recordId results = seqZ startIdx (Z.of_nat (length records))
    /\ map pr_actual_variety results = map variety records.
Proof.
  intros Hvar Hall. eexists.
  split; [exact (processBatch_results env _ _ _ _ _ _ varieties Hvar) |].
  destruct (all_entries_kept records
              (recordEntry env varieties startIdx model timestamp
                 storeCompletions responseFormat) startIdx) as [Hids Htruths].
  { intros i a Ha. destruct (Hall i a Ha) as [label Hlabel].
    unfold recordEntry. rewrite Hlabel. eexists. split; [reflexivity |].
    split; reflexivity. }
  split; [| split; assumption].
  apply (f_equal (@length Z)) in Hids.
  rewrite length_map, length_seqZ in Hids. lia.
Qed.

Lemma processBatch_result_origin (env : BatchEnv)
    (records : list WineRecord) (startIdx : Z) (model timestamp : string)
    (storeCompletions : bool) (responseFormat : ResponseFormat)
    (varieties : list string) (results : list PredictionResult)
    (r : PredictionResult) :
  varietiesOutcome env = Return varieties ->
  snd (processBatch env records startIdx model timestamp storeCompletions
         responseFormat)
  = Return results ->
  In r results ->
  exists index record,
    records !! index = Some record
    /\ pr_recordId r = startIdx + Z.of_nat index
    /\ pr_model r = model
    /\ snd (getPrediction (remoteFor env index) model
              (generatePrompt record varieties) responseFormat timestamp
              (Some storeCompletions) None)
       = Return (pr_prediction r)
    /\ pr_winery r = winery record
    /\ pr_variety r = variety record
    /\ pr_actual_variety r = variety record.
Proof.
  intros Hvar Hres Hin.
  rewrite (processBatch_results env _ _ _ _ _ _ varieties Hvar) in Hres.
  injection Hres as <-. unfold filterNotNull in Hin.
  apply list_elem_of_In, list_elem_of_omap in Hin as (o & Ho & Hr).
  simpl in Hr. subst o.
  apply elem_of_lookup_imap in Ho as (index & record & Heq & Hlook).
  exists index, record. split; [exact Hlook |].
  unfold recordEntry in Heq.
  destruct (snd _) as [prediction | error] eqn:Hrun; [| discriminate].
  injection Heq as ->. cbn. repeat split; reflexivity.
Qed.


(** X6. The task of each record makes at least one and at most three
    remote calls and pauses at most six seconds in all: [processBatch]
    leaves the retry budget at its default. *)
Theorem processBatch_call_budget (env : BatchEnv)
    (records : list WineRecord) (startIdx : Z) (model timestamp : string)
    (storeCompletions : bool) (responseFormat : ResponseFormat)
    (trace : list Event) :
  In trace (fst (processBatch env records startIdx model timestamp
                   storeCompletions responseFormat)) ->
  (1 <= callsOf trace <= 3)%nat /\ 0 <= totalPause trace <= 6000.
Proof.
  unfold processBatch.
  destruct (varietiesOutcome env) as [varieties | e]; [| intros []].
  cbn [fst]. unfold batchOutcomes. rewrite map_imap.
  intros Hin. apply list_elem_of_In, elem_of_lookup_imap in Hin
    as (index & record & -> & _).
  unfold processRecord.
  pose proof (getPrediction_backoff_budget_core (remoteFor env index) model
                (generatePrompt record varieties) timestamp responseFormat
                (Some storeCompletions)) as Hbudget.
  destruct (getPrediction _ _ _ _ _ _ _) as [tr [prediction | error]];
    cbn [fst] in *.
  - exact Hbudget.
  - unfold totalPause in *. now rewrite callsOf_logged, sleepsOf_logged.
Qed.

End ProcessBatchMore.

Lemma processBatch_all_succeed_witness :
  exists results,
    snd (Step2.processBatch (H := exampleHost) Examples.allAnswer
           Examples.threeWines 100 "gpt-4o" "11-03-07-15" true Examples.format)
    = Return results
    /\ map Step2.pr_recordId results = [100; 101; 102].
Proof.
  destruct (processBatch_all_succeed (H := exampleHost) Examples.allAnswer
              Examples.threeWines 100 "gpt-4o" "11-03-07-15" true
              Examples.format ["Merlot"; "Malbec"] eq_refl)
    as (results & Hres & _ & Hids & _).
  - intros [| [| [| index]]] record Hlook; try discriminate;
      injection Hlook as <-; eexists; reflexivity.
  - exists results. split; [exact Hres | exact Hids].
Defined.


Lemma processBatch_call_budget_witness :
  let trace :=
    fst (Step2.processRecord (H := exampleHost) Examples.alwaysDown
           "2024-11-03T07:15:00.000Z" ["Merlot"; "Malbec"] 100 "gpt-4o"
           "11-03-07-15" true Examples.format 1 (Examples.wine "B")) in
  (1 <= callsOf trace <= 3)%nat /\ 0 <= totalPause trace <= 6000.
Proof.
  apply (processBatch_call_budget (H := exampleHost) Examples.secondFails
           Examples.threeWines 100 "gpt-4o" "11-03-07-15" true
           Examples.format).
  right. left. reflexivity.
Defined.

(** ** step2: more on [main] *)

Section MainMore.
Context `{JsHost}.
Import Step2.

Lemma sampleRecords_prefix_core (records : list WineRecord) (numSamples : Z) :
  exists k, sampleRecords records numSamples = firstn k records.
Proof.
  unfold sampleRecords, slice. cbv zeta.
  assert (slice_bound (Z.of_nat (length records)) 0 = 0) as Hzero
    by (unfold slice_bound; simpl; lia).
  destruct (numSamples =? -1); rewrite Hzero; eexists; reflexivity.
Qed.

(** X7. [sampleRecords] always returns a prefix of the records: all of
    them for -1, the first [numSamples] for a count that is not
    negative, and all but the last [-numSamples] for any other negative
    number. *)
Theorem sampleRecords_prefix (records : list WineRecord) (numSamples : Z) :
  (numSamples = -1 -> sampleRecords records numSamples = records)
  /\ (0 <= numSamples ->
      sampleRecords records numSamples = firstn (Z.to_nat numSamples) records)
  /\ (numSamples < -1 ->
      sampleRecords records numSamples
      = firstn (length records - Z.to_nat (- numSamples)) records)
  /\ exists k, sampleRecords records numSamples = firstn k records.
Proof.
  assert (forall stop,
             slice records 0 stop
             = firstn (Z.to_nat (slice_bound (Z.of_nat (length records)) stop))
                 records) as Hslice.
  { intros stop. unfold slice. cbv zeta.
    assert (slice_bound (Z.of_nat (length records)) 0 = 0) as ->
      by (unfold slice_bound; simpl; lia).
    now rewrite Z.sub_0_r. }
  assert (sampleRecords records (-1) = records) as Hall.
  { unfold sampleRecords. cbn [Z.eqb]. rewrite Hslice. unfold slice_bound.
    destruct (Z.ltb_spec (Z.of_nat (length records)) 0); [lia |].
    rewrite Z.min_id, Nat2Z.id. apply firstn_all. }
  assert (0 <= numSamples ->
          sampleRecords records numSamples
          = firstn (Z.to_nat numSamples) records) as Hcount.
  { intros Hpos. unfold sampleRecords.
    destruct (Z.eqb_spec numSamples (-1)); [lia |].
    rewrite Hslice. unfold slice_bound.
    destruct (Z.ltb_spec numSamples 0); [lia |].
    rewrite (firstn_min_length (Z.to_nat numSamples)). f_equal. lia. }
  assert (numSamples < -1 ->
          sampleRecords records numSamples
          = firstn (length records - Z.to_nat (- numSamples)) records)
    as Hdrop.
  { intros Hneg. unfold sampleRecords.
    destruct (Z.eqb_spec numSamples (-1)); [lia |].
    rewrite Hslice. unfold slice_bound.
    destruct (Z.ltb_spec numSamples 0); [| lia].
    f_equal. lia. }
  split; [now intros -> |]. split; [exact Hcount |]. split; [exact Hdrop |].
  destruct (Z.eq_dec numSamples (-1)) as [-> | Hne].
  - exists (length records). rewrite Hall. symmetry. apply firstn_all.
  - destruct (Z.le_gt_cases 0 numSamples).
    + eexists. now apply Hcount.
    + eexists. apply Hdrop. lia.
Qed.



(** X9. Every record [main] puts in a batch was built from a row of the
    dataset with a truthy winery, variety and description. *)
Theorem mainBatches_records_valid (rows : list (gmap string JsValue))
    (numSamples : Z) (b : BatchRun) (record : WineRecord) :
  In b (mainBatches rows numSamples) ->
  In record (batchRecords b) ->
  (exists row,
      In row rows /\ hasRequiredFields row = true
      /\ record = toWineRecord row)
  /\ truthy (winery record) = true
  /\ truthy (variety record) = true
  /\ truthy (description record) = true.
Proof.
  intros Hb Hrecord.
  assert (In record (sampleRecords (collectValidRecords rows) numSamples))
    as Hin.
  { unfold mainBatches in Hb. change 0 with (Z.of_nat 0) in Hb.
    erewrite <- (skipn_O (sampleRecords _ _)).
    rewrite <- (batchLoop_concat _ (length (sampleRecords
                  (collectValidRecords rows) numSamples)) 0%nat) by lia.
    apply in_concat. exists (batchRecords b). split; [| exact Hrecord].
    now apply in_map. }
  destruct (sampleRecords_prefix_core (collectValidRecords rows) numSamples)
    as [k Hk].
  rewrite Hk in Hin.
  assert (In record (collectValidRecords rows)) as Hvalid'.
  { rewrite <- (firstn_skipn k). apply in_or_app. now left. }
  clear Hin. rename Hvalid' into Hin.
  unfold collectValidRecords in Hin. rewrite dataset_loop in Hin.
  cbn [app] in Hin. apply in_map_iff in Hin as (row & <- & Hrow).
  apply List.filter_In in Hrow as [Hrow Hvalid].
  split; [now exists row |].
  unfold hasRequiredFields in Hvalid.
  apply andb_prop in Hvalid as [Hwv Hd]. apply andb_prop in Hwv as [Hw Hv].
  now repeat split.
Qed.

End MainMore.

(** ** step2: saving and the run of a model *)

Section SavingMore.
Context `{JsHost}.
Import Step2.



Lemma saveResults_rows (results : list PredictionResult)
    (model timestamp datasetPath : string)
    (disk0 : gmap string (list PredictionResult)) :
  fileRows (saveResults results model timestamp datasetPath disk0)
    (predictionsPath model timestamp datasetPath)
  = fileRows disk0 (predictionsPath model timestamp datasetPath) ++ results
  /\ forall other,
       other <> predictionsPath model timestamp datasetPath ->
       saveResults results model timestamp datasetPath disk0 !! other
       = disk0 !! other.
Proof.
  unfold saveResults, fileRows. destruct results as [| r results].
  - cbn [length Nat.eqb]. split; [now rewrite app_nil_r | reflexivity].
  - cbn [length Nat.eqb]. cbv zeta. unfold writeRecords.
    change (csv_append (createCsvWriter model timestamp
                          (getDatasetType datasetPath))) with true.
    cbv iota.
    change (csv_path (createCsvWriter model timestamp
                        (getDatasetType datasetPath)))
      with (predictionsPath model timestamp datasetPath).
    split.
    + now rewrite lookup_insert_eq.
    + intros other Hne. now rewrite lookup_insert_ne.
Qed.

(** X10. [saveResults] only ever appends: the rows go to the end of the
    file of the model, run and dataset type, every other file is left as
    it was, nothing is written (and no file created) for an empty batch,
    and saving the same rows again adds them a second time. *)
Theorem saveResults_appends (results : list PredictionResult)
    (model timestamp datasetPath : string)
    (disk0 : gmap string (list PredictionResult)) :
  let path := predictionsPath model timestamp datasetPath in
  let disk1 := saveResults results model timestamp datasetPath disk0 in
  fileRows disk1 path = fileRows disk0 path ++ results
  /\ (forall other, other <> path -> disk1 !! other = disk0 !! other)
  /\ (results = [] -> disk1 = disk0)
  /\ fileRows (saveResults results model timestamp datasetPath disk1) path
     = fileRows disk0 path ++ results ++ results.
Proof.
  intros path disk1. subst path disk1.
  destruct (saveResults_rows results model timestamp datasetPath disk0)
    as [Hrows Hother].
  split; [exact Hrows |]. split; [exact Hother |]. split.
  - now intros ->.
  - destruct (saveResults_rows results model timestamp datasetPath
                (saveResults results model timestamp datasetPath disk0))
      as [Hagain _].
    rewrite Hagain, Hrows. now rewrite <- app_assoc.
Qed.




Lemma runBatches_app_fulfilled (envFor : Z -> BatchEnv) model timestamp
    storeCompletions responseFormat datasetPath (before : list BatchRun) :
  forall later st,
    (forall b, In b before ->
       exists results,
         snd (processBatch (envFor (batchStart b)) (batchRecords b)
                (batchStart b) model timestamp storeCompletions
                responseFormat)
         = Return results) ->
    runBatches envFor model timestamp storeCompletions responseFormat
      datasetPath (before ++ later) st
    = runBatches envFor model timestamp storeCompletions responseFormat
        datasetPath later
        (fst (runBatches envFor model timestamp storeCompletions
                responseFormat datasetPath before st)).
Proof.
  induction before as [| b before IH]; intros later st Hfulfil.
  - reflexivity.
  - destruct (Hfulfil b (or_introl eq_refl)) as [results Hresults].
    cbn [app runBatches].
    destruct (processBatch (envFor (batchStart b)) (batchRecords b)
                (batchStart b) model timestamp storeCompletions
                responseFormat) as [traces [results' | e]];
      [| discriminate].
    apply IH. intros b' Hb'. apply Hfulfil. now right.
Qed.

(** [processBatch] rejects only with the rejection of
    [getUniqueVarieties]. *)
Lemma processBatch_rejects (env : BatchEnv) records startIdx model timestamp
    storeCompletions responseFormat (e : Error) :
  snd (processBatch env records startIdx model timestamp storeCompletions
         responseFormat) = Throw e
  <-> varietiesOutcome env = Throw e.
Proof.
  unfold processBatch.
  destruct (varietiesOutcome env) as [varieties | e']; cbn [snd].
  - split; discriminate.
  - split; intros [= <-]; reflexivity.
Qed.

(** X12. A batch whose [processBatch] rejects, which it does only with
    the rejection of [getUniqueVarieties] on an error of the parse
    stream, ends the batch loop of the model with that error: what
    earlier batches saved stays on disk, and neither that batch nor any
    later one is saved or counted. *)
Theorem runBatches_rejected_batch_aborts (envFor : Z -> BatchEnv)
    (model timestamp : string) (storeCompletions : bool)
    (responseFormat : ResponseFormat) (datasetPath : string)
    (before later : list BatchRun) (b : BatchRun) (st : RunState)
    (e : Error) :
  (forall b', In b' before ->
     exists results,
       snd (processBatch (envFor (batchStart b')) (batchRecords b')
              (batchStart b') model timestamp storeCompletions
              responseFormat)
       = Return results) ->
  snd (processBatch (envFor (batchStart b)) (batchRecords b) (batchStart b)
         model timestamp storeCompletions responseFormat)
  = Throw e ->
  let reached := fst (runBatches envFor model timestamp storeCompletions
                        responseFormat datasetPath before st) in
  let out := runBatches envFor model timestamp storeCompletions
               responseFormat datasetPath (before ++ b :: later) st in
  varietiesOutcome (envFor (batchStart b)) = Throw e
  /\ snd out = Throw e
  /\ disk (fst out) = disk reached
  /\ totalProcessed (fst out) = totalProcessed reached.
Proof.
  intros Hfulfil Hfail reached out. subst reached out.
  split; [now apply processBatch_rejects in Hfail |].
  rewrite runBatches_app_fulfilled by exact Hfulfil.
  cbn [runBatches].
  destruct (processBatch (envFor (batchStart b)) (batchRecords b)
              (batchStart b) model timestamp storeCompletions responseFormat)
    as [traces [results | e']].
  - discriminate.
  - cbn [snd] in Hfail. injection Hfail as ->. now repeat split.
Qed.




(** X13. The id saved with a result is the position of its record among
    the sampled records, whichever batch processed it: the rows two
    models save for the same records carry the same ids and the same
    ground truth. *)
Theorem saved_rows_index_sampled_records (envFor : Z -> BatchEnv)
    (sampledRecords : list WineRecord) (model timestamp : string)
    (storeCompletions : bool) (responseFormat : ResponseFormat)
    (b : BatchRun) (r : PredictionResult) :
  In b (batchLoop sampledRecords 0) ->
  In r (batchResultsOf envFor model timestamp storeCompletions
          responseFormat b) ->
  0 <= pr_recordId r
  /\ exists record,
       sampledRecords !! Z.to_nat (pr_recordId r) = Some record
       /\ pr_winery r = winery record
       /\ pr_variety r = variety record
       /\ pr_actual_variety r = variety record.
Proof.
  intros Hb Hr.
  apply list_elem_of_In, list_elem_of_lookup in Hb as [j Hj].
  rewrite batchLoop_lookup_start in Hj.
  destruct (Nat.ltb_spec (50 * j) (length sampledRecords)); [| discriminate].
  assert (b = batchAt sampledRecords (Z.of_nat (50 * j))) as -> by congruence.
  unfold batchResultsOf in Hr.
  destruct (varietiesOutcome
              (envFor (batchStart (batchAt sampledRecords (Z.of_nat (50 * j))))))
    as [varieties | e] eqn:Hvar.
  2:{ unfold processBatch in Hr. rewrite Hvar in Hr. destruct Hr. }
  destruct (snd (processBatch _ _ _ _ _ _ _)) as [results | e] eqn:Hres;
    [| destruct Hr].
  destruct (processBatch_result_origin _ _ _ _ _ _ _ varieties results r
              Hvar Hres Hr)
    as (index & record & Hlook & Hid & _ & _ & Hw & Hv & Ha).
  rewrite batchAt_records in Hlook. rewrite batchAt_start in Hid.
  apply lookup_take_Some in Hlook as [Hlook _].
  rewrite lookup_drop in Hlook.
  split; [lia |]. exists record.
  replace (Z.to_nat (pr_recordId r)) with (50 * j + index)%nat by lia.
  auto.
Qed.

End SavingMore.


Lemma mainBatches_records_valid_witness :
  truthy (Step2.description (toWineRecord (H := exampleHost) Examples.fullRow))
  = true.
Proof.
  apply (mainBatches_records_valid (H := exampleHost)
           [Examples.rowWithoutDescription; Examples.fullRow] (-1)
           (batchAt [toWineRecord Examples.fullRow] 0)
           (toWineRecord Examples.fullRow)).
  - left. vm_compute. reflexivity.
  - left. reflexivity.
Defined.


Lemma runBatches_rejected_batch_aborts_witness :
  snd (Step2.runBatches (H := exampleHost)
         (fun i => if i =? 0 then Examples.allAnswer else Examples.noVarieties)
         "gpt-4o" "11-03-07-15" true Examples.format Step2.trainDataPath
         ([batchAt Examples.threeWines 0]
            ++ batchAt Examples.threeWines 50 :: [])
         {| Step2.disk := ∅; Step2.totalProcessed := 0; Step2.mainLog := [] |})
  = Throw (ErrParseStream "Stream destroyed").
Proof.
  apply (runBatches_rejected_batch_aborts (H := exampleHost)
           (fun i => if i =? 0 then Examples.allAnswer else Examples.noVarieties)
           "gpt-4o" "11-03-07-15" true Examples.format Step2.trainDataPath
           [batchAt Examples.threeWines 0] []
           (batchAt Examples.threeWines 50)).
  - intros b' [<- | []]. eexists. reflexivity.
  - reflexivity.
Defined.

Lemma saved_rows_index_sampled_records_witness :
  exists record,
    Examples.threeWines !! Z.to_nat (Step2.pr_recordId Examples.zerothResult)
    = Some record
    /\ Step2.pr_actual_variety Examples.zerothResult = Step2.variety record.
Proof.
  destruct (saved_rows_index_sampled_records (H := exampleHost)
              (fun _ => Examples.allAnswer) Examples.threeWines "gpt-4o"
              "11-03-07-15" true Examples.format
              (batchAt Examples.threeWines 0) Examples.zerothResult)
    as (_ & record & Hlook & _ & _ & Htruth).
  - left. reflexivity.
  - left. reflexivity.
  - exists record. auto.
Defined.

(** ** Files, datasets and the evaluation *)

Section EvaluationMore.
Import RunEvaluation.

(** X14. A dataset path is filed as 'train' exactly when the text
    'train' occurs somewhere in it, in a directory name as well, and as
    'validation' in every other case; the two dataset paths of the code
    are filed as their names say. *)
Theorem getDatasetType_classifies (datasetPath : string) :
  (Step2.getDatasetType datasetPath = "train"
   <-> exists a b,
         datasetPath = String.append a (String.append "train" b))
  /\ (Step2.getDatasetType datasetPath = "validation"
      <-> ~ exists a b,
              datasetPath = String.append a (String.append "train" b))
  /\ Step2.getDatasetType Step2.trainDataPath = "train"
  /\ Step2.getDatasetType Step2.validationDataPath = "validation".
Proof.
  unfold Step2.getDatasetType.
  pose proof (includes_spec "train" datasetPath) as Hspec.
  destruct (includes datasetPath "train").
  - split; [| split; [| split; reflexivity]].
    + split; [intros _; now apply Hspec | reflexivity].
    + split; [discriminate |]. intros Hno. exfalso. apply Hno.
      now apply Hspec.
  - split; [| split; [| split; reflexivity]].
    + split; [discriminate |]. intros Hsub. apply Hspec in Hsub.
      discriminate.
    + split; [| reflexivity]. intros _ Hsub. apply Hspec in Hsub.
      discriminate.
Qed.



Section Steps.
Variable World : Type.
Variable runPredictions : PredictionsCall -> World -> World * Completion unit.
Variable analyzePredictions : AnalysisFiles -> World -> World * Completion unit.

Lemma evaluateDatasets_steps comparisonModel storeCompletions numSamples
    timestamp (datasets : list string) :
  forall w steps0,
    let out := evaluateDatasets World runPredictions analyzePredictions
                 comparisonModel storeCompletions numSamples timestamp
                 datasets w steps0 in
    let plan := evaluationPlan comparisonModel storeCompletions numSamples
                  timestamp datasets in
    (exists done rest,
        snd (fst out) = steps0 ++ done /\ plan = done ++ rest)
    /\ (snd out = Return tt -> snd (fst out) = steps0 ++ plan).
Proof.
  induction datasets as [| dataset datasets IH]; intros w steps0; cbv zeta.
  - cbn. split; [| intros _; now rewrite app_nil_r].
    exists [], []. now rewrite app_nil_r.
  - cbn [evaluateDatasets evaluationPlan flat_map]. cbv zeta.
    set (call := predictionsCallFor comparisonModel storeCompletions
                   numSamples timestamp dataset).
    set (files := analysisFilesFor comparisonModel timestamp dataset).
    destruct (runPredictions call w) as [w1 [[] | e1]].
    + destruct (analyzePredictions files w1) as [w2 [[] | e2]].
      * destruct (IH w2 (steps0 ++ [RunPredictions call;
                                    AnalyzePredictions files]))
          as [(done & rest & Hsteps & Hplan) Hall].
        cbv zeta in Hsteps, Hplan, Hall. split.
        -- exists ([RunPredictions call; AnalyzePredictions files] ++ done),
             rest.
           split; [now rewrite Hsteps, <- app_assoc |].
           fold (evaluationPlan comparisonModel storeCompletions numSamples
                   timestamp datasets).
           rewrite Hplan. now rewrite <- app_assoc.
        -- intros Hret. rewrite (Hall Hret). now rewrite <- app_assoc.
      * cbn [fst snd]. split; [| discriminate].
        exists [RunPredictions call; AnalyzePredictions files],
          (evaluationPlan comparisonModel storeCompletions numSamples
             timestamp datasets).
        split; reflexivity.
    + cbn [fst snd]. split; [| discriminate].
      exists [RunPredictions call],
        (AnalyzePredictions files
           :: evaluationPlan comparisonModel storeCompletions numSamples
                timestamp datasets).
      split; reflexivity.
Qed.

Lemma evaluateDatasets_stops comparisonModel storeCompletions numSamples
    timestamp (datasets : list string) :
  forall w steps0,
    let out := evaluateDatasets World runPredictions analyzePredictions
                 comparisonModel storeCompletions numSamples timestamp
                 datasets w steps0 in
    let plan := evaluationPlan comparisonModel storeCompletions numSamples
                  timestamp datasets in
    match snd out with
    | Return _ =>
        snd (fst out) = steps0 ++ plan
        /\ afterSteps World runPredictions analyzePredictions plan w
           = Some (fst (fst out))
    | Throw e =>
        exists before failing rest w1,
          plan = before ++ failing :: rest
          /\ snd (fst out) = steps0 ++ before ++ [failing]
          /\ afterSteps World runPredictions analyzePredictions before w
             = Some w1
          /\ runStep World runPredictions analyzePredictions failing w1
             = (fst (fst out), Throw e)
    end.
Proof.
  induction datasets as [| dataset datasets IH]; intros w steps0; cbv zeta.
  - cbn. now rewrite app_nil_r.
  - cbn [evaluateDatasets evaluationPlan flat_map]. cbv zeta.
    set (call := predictionsCallFor comparisonModel storeCompletions
                   numSamples timestamp dataset).
    set (files := analysisFilesFor comparisonModel timestamp dataset).
    fold (evaluationPlan comparisonModel storeCompletions numSamples
            timestamp datasets).
    destruct (runPredictions call w) as [w1 [[] | e1]] eqn:Hrun.
    + destruct (analyzePredictions files w1) as [w2 [[] | e2]] eqn:Hanalyze.
      * specialize (IH w2 (steps0 ++ [RunPredictions call;
                                      AnalyzePredictions files])).
        cbv zeta in IH.
        destruct (snd (evaluateDatasets World runPredictions
                         analyzePredictions comparisonModel storeCompletions
                         numSamples timestamp datasets w2
                         (steps0 ++ [RunPredictions call;
                                     AnalyzePredictions files])))
          as [[] | e].
        -- destruct IH as [Hsteps Hworld]. split.
           ++ rewrite Hsteps. now rewrite <- app_assoc.
           ++ cbn [app afterSteps runStep]. now rewrite Hrun, Hanalyze.
        -- destruct IH as (before & failing & rest & w3 & Hplan & Hsteps
                           & Hbefore & Hfail).
           exists ([RunPredictions call; AnalyzePredictions files] ++ before),
             failing, rest, w3.
           split; [rewrite Hplan; now rewrite <- app_assoc |].
           split; [rewrite Hsteps; now rewrite <- !app_assoc |].
           split; [| exact Hfail].
           cbn [app afterSteps runStep]. now rewrite Hrun, Hanalyze.
      * cbn [fst snd].
        exists [RunPredictions call], (AnalyzePredictions files),
          (evaluationPlan comparisonModel storeCompletions numSamples
             timestamp datasets), w1.
        split; [reflexivity |]. split; [reflexivity |].
        split; [| exact Hanalyze].
        cbn [afterSteps runStep]. now rewrite Hrun.
    + cbn [fst snd].
      exists [], (RunPredictions call),
        (AnalyzePredictions files
           :: evaluationPlan comparisonModel storeCompletions numSamples
                timestamp datasets), w.
      split; [reflexivity |]. split; [reflexivity |].
      split; [reflexivity | exact Hrun].
Qed.

(** X16. An evaluation goes through its datasets in order, predictions
    and then analysis for each, and stops at the first step that fails.
    When it fulfils, the steps it ran are the whole plan, each run on the
    world its predecessor left, and each fulfilled. When it rejects, the
    steps it ran are the steps of the plan up to and including one step:
    the steps before it all fulfilled, that step rejected, the
    evaluation rejects with that step's error and leaves the world as
    that step left it; no later step is run. Every prediction run gets
    the same timestamp, sample count and storing flag, the flag being
    set for the whole run when the comparison model is 'gpt-4o-mini' and
    'train' is among the datasets. *)
Theorem runEvaluation_steps (now : DateParts) (comparisonModel : string)
    (numSamples : option Z) (datasets : option (list string)) (w : World) :
  let out := runEvaluation World runPredictions analyzePredictions now
               comparisonModel numSamples datasets w in
  let steps := snd (fst out) in
  let reached := fst (fst out) in
  let chosen := default ["train"; "validation"] datasets in
  let storeCompletions :=
    String.eqb comparisonModel "gpt-4o-mini" && existsb (String.eqb "train") chosen in
  let plan := evaluationPlan comparisonModel storeCompletions
                (default 3 numSamples) (getRunTimestamp now) chosen in
  match snd out with
  | Return _ =>
      steps = plan
      /\ afterSteps World runPredictions analyzePredictions plan w
         = Some reached
  | Throw e =>
      exists before failing rest w1,
        plan = before ++ failing :: rest
        /\ steps = before ++ [failing]
        /\ afterSteps World runPredictions analyzePredictions before w
           = Some w1
        /\ runStep World runPredictions analyzePredictions failing w1
           = (reached, Throw e)
  end
  /\ (exists rest, plan = steps ++ rest)
  /\ (snd out = Return tt -> steps = plan)
  /\ (forall call,
        In (RunPredictions call) steps ->
        call_comparisonModel call = comparisonModel
        /\ call_storeCompletions call = storeCompletions
        /\ call_numSamples call = default 3 numSamples
        /\ call_timestamp call = getRunTimestamp now).
Proof.
  cbv zeta. unfold runEvaluation. cbv zeta.
  set (chosen := default ["train"; "validation"] datasets).
  set (storeCompletions :=
         String.eqb comparisonModel "gpt-4o-mini"
         && existsb (String.eqb "train") chosen).
  split.
  { pose proof (evaluateDatasets_stops comparisonModel storeCompletions
                  (default 3 numSamples) (getRunTimestamp now) chosen w [])
      as Hstops.
    cbv zeta in Hstops. cbn [app] in Hstops. exact Hstops. }
  destruct (evaluateDatasets_steps comparisonModel storeCompletions
              (default 3 numSamples) (getRunTimestamp now) chosen w [])
    as [(done & rest & Hsteps & Hplan) Hall].
  cbv zeta in Hsteps, Hplan, Hall. cbn [app] in Hsteps, Hall.
  split; [exists rest; now rewrite Hsteps |]. split; [exact Hall |].
  intros call Hin. rewrite Hsteps in Hin.
  assert (In (RunPredictions call)
            (evaluationPlan comparisonModel storeCompletions
               (default 3 numSamples) (getRunTimestamp now) chosen)) as Hplanned.
  { rewrite Hplan. apply in_or_app. now left. }
  unfold evaluationPlan in Hplanned.
  apply in_flat_map in Hplanned as (dataset & _ & [Hcall | [Hcall | []]]);
    [| discriminate].
  injection Hcall as <-. now repeat split.
Qed.

End Steps.

End EvaluationMore.

(** An evaluation whose first analysis fails: the world counts the steps
    run, and the evaluation of the two default datasets ends after two
    steps with the error of the analysis. *)
Example runEvaluation_stops_at_failing_analysis :
  let out :=
    RunEvaluation.runEvaluation nat
      (fun _ ran => (S ran, Return tt))
      (fun files ran =>
         (S ran, Throw (ErrFileNotFound (RunEvaluation.baseModelFile files))))
      {| getMonth := 10; getDate := 3; getHours := 7; getMinutes := 5 |}
      "gpt-4o-mini" None None 0%nat in
  fst (fst out) = 2%nat
  /\ length (snd (fst out)) = 2%nat
  /\ snd out
     = Throw (ErrFileNotFound "./data/predictions_gpt-4o_train_11-03-07-05.csv").
Proof. vm_compute. repeat split. Qed.

(** ** The run timestamp and the command line *)

Section TimestampMore.

Lemma twoDigits_length (n : nat) :
  (n < 100)%nat -> String.length (twoDigits n) = 2%nat.
Proof.
  intros Hn.
  assert (forallb (fun k => Nat.eqb (String.length (twoDigits k)) 2)
            (seq 0 100) = true) as Hall by (vm_compute; reflexivity).
  rewrite forallb_forall in Hall.
  apply Nat.eqb_eq, Hall, in_seq. lia.
Qed.

Lemma twoDigits_inj (n m : nat) :
  (n < 100)%nat -> (m < 100)%nat -> twoDigits n = twoDigits m -> n = m.
Proof.
  intros Hn Hm Heq.
  assert (forallb
            (fun k =>
               forallb
                 (fun l => implb (String.eqb (twoDigits k) (twoDigits l))
                             (Nat.eqb k l))
                 (seq 0 100))
            (seq 0 100) = true) as Hall by (vm_compute; reflexivity).
  rewrite forallb_forall in Hall.
  specialize (Hall n ltac:(apply in_seq; lia)).
  rewrite forallb_forall in Hall.
  specialize (Hall m ltac:(apply in_seq; lia)).
  rewrite Heq, String.eqb_refl in Hall. now apply Nat.eqb_eq.
Qed.

Lemma monthDayHourMinute_unfold (now : DateParts) :
  monthDayHourMinute now
  = String.append (twoDigits (getMonth now + 1))
      (String.append "-"
         (String.append (twoDigits (getDate now))
            (String.append "-"
               (String.append (twoDigits (getHours now))
                  (String.append "-" (twoDigits (getMinutes now))))))).
Proof. reflexivity. Qed.

Lemma twoDigits_digits2 (n : nat) :
  (n < 100)%nat -> twoDigits n = digits2 n.
Proof.
  intros Hn.
  assert (forallb (fun k => String.eqb (twoDigits k) (digits2 k))
            (seq 0 100) = true) as Hall by (vm_compute; reflexivity).
  rewrite forallb_forall in Hall.
  apply String.eqb_eq, Hall, in_seq. lia.
Qed.

(** X17. For the readings of a clock the run timestamp has the form
    MM-DD-HH-mm: the month counted from one (the clock counts it from
    zero), the day of the month, the hour and the minute, in this
    order, each as two decimal digits, joined by '-'. It is eleven
    characters long, and two runs get the same timestamp exactly when
    they start in the same minute of the same day of the year: it names
    no year and no second. *)
Theorem getRunTimestamp_format (now : DateParts) :
  validDateParts now ->
  RunEvaluation.getRunTimestamp now
  = String.concat "-"
      (map digits2
         [(getMonth now + 1)%nat; getDate now; getHours now; getMinutes now])
  /\ String.length (RunEvaluation.getRunTimestamp now) = 11%nat
  /\ forall other,
       validDateParts other ->
       (RunEvaluation.getRunTimestamp now
        = RunEvaluation.getRunTimestamp other
        <-> now = other).
Proof.
  unfold validDateParts, RunEvaluation.getRunTimestamp.
  intros (Hmo & Hd & Hh & Hmi). split; [| split].
  - rewrite monthDayHourMinute_unfold.
    rewrite !twoDigits_digits2 by lia. reflexivity.
  - rewrite monthDayHourMinute_unfold, !string_length_append.
    rewrite !twoDigits_length by lia. reflexivity.
  - intros other (Hmo' & Hd' & Hh' & Hmi'). split; [| now intros ->].
    rewrite !monthDayHourMinute_unfold. intros Heq.
    apply string_append_inj_length in Heq as [Hmonth Heq];
      [| rewrite !twoDigits_length by lia; reflexivity].
    apply (inj (String.append "-")) in Heq.
    apply string_append_inj_length in Heq as [Hday Heq];
      [| rewrite !twoDigits_length by lia; reflexivity].
    apply (inj (String.append "-")) in Heq.
    apply string_append_inj_length in Heq as [Hhour Heq];
      [| rewrite !twoDigits_length by lia; reflexivity].
    apply (inj (String.append "-")) in Heq.
    apply twoDigits_inj in Hmonth; [| lia | lia].
    apply twoDigits_inj in Hday; [| lia | lia].
    apply twoDigits_inj in Hhour; [| lia | lia].
    apply twoDigits_inj in Heq; [| lia | lia].
    destruct now, other. cbn in *. f_equal; lia.
Qed.

End TimestampMore.

Lemma getRunTimestamp_format_witness :
  validDateParts
    {| getMonth := 10; getDate := 3; getHours := 7; getMinutes := 5 |}
  /\ RunEvaluation.getRunTimestamp
       {| getMonth := 10; getDate := 3; getHours := 7; getMinutes := 5 |}
     = "11-03-07-05"
  /\ String.length
       (RunEvaluation.getRunTimestamp
          {| getMonth := 10; getDate := 3; getHours := 7; getMinutes := 5 |})
     = 11%nat.
Proof.
  assert (validDateParts
            {| getMonth := 10; getDate := 3; getHours := 7; getMinutes := 5 |})
    as Hvalid by (unfold validDateParts; cbn; lia).
  split; [exact Hvalid |].
  destruct (getRunTimestamp_format _ Hvalid) as (Hform & Hlength & _).
  split; [| exact Hlength].
  rewrite Hform. reflexivity.
Defined.

Section CliMore.
Import RunEvaluation.

Lemma split_nonempty (sep : Ascii.ascii) (s : string) : split sep s <> [].
Proof.
  destruct s as [| c s]; simpl; [discriminate |].
  destruct (Ascii.eqb c sep); [discriminate |].
  destruct (split sep s); discriminate.
Qed.

(** X18. Joining the pieces of [split] with the separator gives the
    string back; there is always at least one piece, and no piece holds
    the separator. *)
Theorem split_join_round_trip (sep : Ascii.ascii) (s : string) :
  String.concat (String sep EmptyString) (split sep s) = s
  /\ split sep s <> []
  /\ forall piece,
       In piece (split sep s) ->
       includes piece (String sep EmptyString) = false.
Proof.
  split; [| split; [apply split_nonempty |]].
  - induction s as [| c s IH]; [reflexivity |].
    pose proof (split_nonempty sep s) as Hne.
    cbn [split]. destruct (Ascii.eqb_spec c sep) as [-> | Hc].
    + destruct (split sep s) as [| w ws]; [congruence |].
      change (String sep (String.concat (String sep EmptyString) (w :: ws))
              = String sep s).
      now rewrite IH.
    + destruct (split sep s) as [| w ws]; [congruence |].
      destruct ws as [| w' ws].
      * cbn in IH |- *. now rewrite IH.
      * change (String c (String.concat (String sep EmptyString)
                            (w :: w' :: ws)) = String c s).
        now rewrite IH.
  - induction s as [| c s IH]; intros piece Hin.
    + destruct Hin as [<- | []]. reflexivity.
    + pose proof (split_nonempty sep s) as Hne.
      cbn [split] in Hin. destruct (Ascii.eqb_spec c sep) as [-> | Hc].
      * destruct Hin as [<- | Hin]; [reflexivity | now apply IH].
      * destruct (split sep s) as [| w ws]; [congruence |].
        destruct Hin as [<- | Hin]; [| apply IH; now right].
        specialize (IH w (or_introl eq_refl)).
        change (includes (String c w) (String sep EmptyString))
          with (startsWith (String c w) (String sep EmptyString)
                || includes w (String sep EmptyString)).
        rewrite IH, orb_false_r. cbn.
        destruct (Ascii.eqb_spec sep c); [congruence |]. reflexivity.
Qed.

Variable parseInt : option string -> option Z.
Variable runEvaluation : EvaluationConfig -> Completion unit.

(** X19. Whatever the arguments, the handler runs the evaluation, with
    a configuration whose model is not empty, whose sample count is not
    0 and whose dataset list is not empty; a model given on the command
    line is the one used.  The process is ended with code 1 exactly when
    that evaluation fails, and otherwise [process.exit] is not called. *)
Theorem cli_runs_evaluation (argv : list string) :
  exists cfg,
    comparisonModel cfg <> EmptyString
    /\ numSamples cfg <> 0
    /\ datasets cfg <> []
    /\ (forall given,
          argv !! 2%nat = Some given -> given <> EmptyString ->
          comparisonModel cfg = given)
    /\ (exitCode (cli parseInt runEvaluation argv) = Some 1
        <-> exists e, runEvaluation cfg = Throw e)
    /\ (exitCode (cli parseInt runEvaluation argv) = None
        <-> exists u, runEvaluation cfg = Return u).
Proof.
  unfold cli.
  pose proof (orDefault_nonempty (argv !! 2%nat) "gpt-4o-mini" eq_refl)
    as Hmodel.
  rewrite Hmodel.
  exists {| comparisonModel := orDefault (argv !! 2%nat) "gpt-4o-mini";
            numSamples := match parseInt (argv !! 4%nat) with
                          | Some n => if n =? 0 then 3 else n
                          | None => 3
                          end;
            datasets := split (Ascii.ascii_of_nat 44)
                          (orDefault (argv !! 3%nat) "train,validation") |}.
  cbn [comparisonModel numSamples datasets].
  split; [| split; [| split; [| split; [| split]]]].
  - intros Heq. rewrite Heq in Hmodel. discriminate.
  - destruct (parseInt (argv !! 4%nat)) as [n |]; [| lia].
    destruct (Z.eqb_spec n 0); lia.
  - apply split_nonempty.
  - intros given -> Hgiven. unfold orDefault.
    destruct (String.eqb_spec given EmptyString); [contradiction | reflexivity].
  - destruct (runEvaluation _) as [u | e]; cbn; split.
    + discriminate.
    + intros [e [=]].
    + intros _. now exists e.
    + reflexivity.
  - destruct (runEvaluation _) as [u | e]; cbn; split.
    + intros _. now exists u.
    + reflexivity.
    + discriminate.
    + intros [u [=]].
Qed.

End CliMore.

(** ** step3: more on the reader and the analysis *)

Section AnalysisMore.
Context `{JsHost}.
Import Step3.

Lemma narrow_mapRecord (row : list JsValue) :
  validateWinePredictionRecord (mapRecord row) = true ->
  exists p,
    narrow (mapRecord row) = Some p
    /\ prediction p = js_String (js_index row 2)
    /\ actual_variety p = js_String (js_index row 6).
Proof.
  rewrite validateWinePredictionRecord_mapRecord.
  intros [_ Hmodel]%andb_prop.
  unfold narrow, mapRecord. cbn.
  destruct (js_index row 1); try discriminate.
  eexists. split; [reflexivity |]. split; reflexivity.
Qed.

Lemma settled_sticky (events : list StreamEvent) :
  forall st r,
    settled st = Some r ->
    settled (fold_left onEvent events st) = Some r.
Proof.
  induction events as [| ev events IH]; intros st r Hst; [exact Hst |].
  cbn [fold_left]. apply IH.
  destruct ev as [row | cause | cause]; cbn [onEvent].
  - destruct (validateWinePredictionRecord (mapRecord row)); exact Hst.
  - unfold settle. now rewrite Hst.
  - unfold settle. now rewrite Hst.
Qed.

Lemma reader_invariant (events : list StreamEvent) :
  forall st,
    List.Forall keptRecord (validRecords st) ->
    (forall l, settled st <> Some (Return l)) ->
    List.Forall keptRecord (validRecords (fold_left onEvent events st))
    /\ forall l,
         settled (fold_left onEvent events st) <> Some (Return l).
Proof.
  induction events as [| ev events IH]; intros st Hkept Hsettled;
    [now split |].
  cbn [fold_left]. apply IH.
  - destruct ev as [row | cause | cause]; cbn [onEvent].
    + destruct (validateWinePredictionRecord (mapRecord row)) eqn:Hvalid;
        [| exact Hkept].
      cbn [validRecords]. apply List.Forall_app. split; [exact Hkept |].
      constructor; [| constructor]. now exists row.
    + unfold settle. destruct (settled st); exact Hkept.
    + unfold settle. destruct (settled st); exact Hkept.
  - destruct ev as [row | cause | cause]; cbn [onEvent].
    + destruct (validateWinePredictionRecord (mapRecord row));
        exact Hsettled.
    + unfold settle. destruct (settled st) eqn:Hst.
      * rewrite Hst. exact Hsettled.
      * cbn [settled]. discriminate.
    + unfold settle. destruct (settled st) eqn:Hst.
      * rewrite Hst. exact Hsettled.
      * cbn [settled]. discriminate.
Qed.

Lemma readPredictionsFile_returned (fs : string -> option (list StreamEvent))
    (filePath : string) (records : list MappedRecord) :
  readPredictionsFile fs filePath = Return records ->
  records <> [] /\ List.Forall keptRecord records.
Proof.
  unfold readPredictionsFile.
  destruct (fs filePath) as [events |]; [| discriminate].
  destruct (reader_invariant events {| validRecords := []; settled := None |})
    as [Hkept Hsettled]; [constructor | discriminate |].
  unfold onEnd.
  destruct (settled (fold_left onEvent events _)) as [r |] eqn:Hst.
  - intros ->. now destruct (Hsettled records).
  - destruct (validRecords (fold_left onEvent events _)) as [| r rs];
      [discriminate |].
    cbn [length Nat.eqb]. intros [= <-]. split; [discriminate | exact Hkept].
Qed.

Lemma streamEvents_cases (events : list StreamEvent) :
  (exists rows, events = map SData rows)
  \/ (exists rows cause later,
        events = map SData rows ++ SParseError cause :: later)
  \/ (exists rows cause later,
        events = map SData rows ++ SReadError cause :: later).
Proof.
  induction events as [| ev events IH].
  - left. now exists [].
  - destruct ev as [row | cause | cause].
    + destruct IH as [[rows ->] | [(rows & cause & later & ->)
                                  | (rows & cause & later & ->)]].
      * left. now exists (row :: rows).
      * right. left. now exists (row :: rows), cause, later.
      * right. right. now exists (row :: rows), cause, later.
    + right. left. now exists [], cause, events.
    + right. right. now exists [], cause, events.
Qed.

Lemma readPredictionsFile_rows (fs : string -> option (list StreamEvent))
    (filePath : string) (rows : list (list JsValue)) :
  fs filePath = Some (map SData rows) ->
  readPredictionsFile fs filePath
  = match validPredictions rows with
    | [] => Throw (ErrNoValidRecords filePath)
    | _ :: _ => Return (validPredictions rows)
    end.
Proof.
  intros Hfile. unfold readPredictionsFile.
  rewrite Hfile, predictions_loop. unfold onEnd.
  cbn [settled validRecords app].
  now destruct (validPredictions rows).
Qed.

Lemma readPredictionsFile_parse_error
    (fs : string -> option (list StreamEvent)) (filePath : string)
    rows cause later :
  fs filePath = Some (map SData rows ++ SParseError cause :: later) ->
  readPredictionsFile fs filePath = Throw (ErrParsingFile cause).
Proof.
  intros Hfile. unfold readPredictionsFile.
  rewrite Hfile, fold_left_app, predictions_loop. cbn [fold_left onEvent].
  unfold onEnd.
  now rewrite (settled_sticky later _ (Throw (ErrParsingFile cause))).
Qed.

Lemma readPredictionsFile_read_error
    (fs : string -> option (list StreamEvent)) (filePath : string)
    rows cause later :
  fs filePath = Some (map SData rows ++ SReadError cause :: later) ->
  readPredictionsFile fs filePath = Throw (ErrReadingFile cause).
Proof.
  intros Hfile. unfold readPredictionsFile.
  rewrite Hfile, fold_left_app, predictions_loop. cbn [fold_left onEvent].
  unfold onEnd.
  now rewrite (settled_sticky later _ (Throw (ErrReadingFile cause))).
Qed.

(** X20. The reader of a predictions file ends in one of these ways,
    and in no other. A missing file is 'File not found'. A file whose streams emit
    rows only is read as the rows that pass the type guard, in file
    order, and is 'No valid records found' when no row passes. A file
    whose streams emit an error has the first such error as the error
    of the read, 'Error parsing file' or 'Error reading file' with its
    cause, whatever rows came before or come after. Every file is of
    one of these kinds, so when the read succeeds the records returned
    are never none, each being a row that passed the type guard. *)
Theorem readPredictionsFile_outcomes
    (fs : string -> option (list StreamEvent)) (filePath : string) :
  match fs filePath with
  | None =>
      readPredictionsFile fs filePath = Throw (ErrFileNotFound filePath)
  | Some events =>
      (exists rows,
          events = map SData rows
          /\ readPredictionsFile fs filePath
             = match validPredictions rows with
               | [] => Throw (ErrNoValidRecords filePath)
               | _ :: _ => Return (validPredictions rows)
               end)
      \/ (exists rows cause later,
            events = map SData rows ++ SParseError cause :: later
            /\ readPredictionsFile fs filePath
               = Throw (ErrParsingFile cause))
      \/ (exists rows cause later,
            events = map SData rows ++ SReadError cause :: later
            /\ readPredictionsFile fs filePath
               = Throw (ErrReadingFile cause))
  end
  /\ (fs filePath = None ->
      readPredictionsFile fs filePath = Throw (ErrFileNotFound filePath))
  /\ (forall rows,
        fs filePath = Some (map SData rows) ->
        validPredictions rows = [] ->
        readPredictionsFile fs filePath = Throw (ErrNoValidRecords filePath))
  /\ (forall rows,
        fs filePath = Some (map SData rows) ->
        validPredictions rows <> [] ->
        readPredictionsFile fs filePath = Return (validPredictions rows))
  /\ (forall rows cause later,
        fs filePath = Some (map SData rows ++ SParseError cause :: later) ->
        readPredictionsFile fs filePath = Throw (ErrParsingFile cause))
  /\ (forall rows cause later,
        fs filePath = Some (map SData rows ++ SReadError cause :: later) ->
        readPredictionsFile fs filePath = Throw (ErrReadingFile cause))
  /\ (forall records,
        readPredictionsFile fs filePath = Return records ->
        records <> [] /\ List.Forall keptRecord records).
Proof.
  split; [| split; [| split; [| split; [| split; [| split]]]]].
  - destruct (fs filePath) as [events |] eqn:Hfile.
    + destruct (streamEvents_cases events)
        as [[rows ->] | [(rows & cause & later & ->)
                        | (rows & cause & later & ->)]].
      * left. exists rows. split; [reflexivity |].
        now apply readPredictionsFile_rows.
      * right. left. exists rows, cause, later. split; [reflexivity |].
        now apply (readPredictionsFile_parse_error fs filePath rows cause later).
      * right. right. exists rows, cause, later. split; [reflexivity |].
        now apply (readPredictionsFile_read_error fs filePath rows cause later).
    + unfold readPredictionsFile. now rewrite Hfile.
  - intros Hnone. unfold readPredictionsFile. now rewrite Hnone.
  - intros rows Hfile Hnone.
    rewrite (readPredictionsFile_rows fs filePath rows Hfile). now rewrite Hnone.
  - intros rows Hfile Hsome.
    rewrite (readPredictionsFile_rows fs filePath rows Hfile).
    destruct (validPredictions rows); [congruence | reflexivity].
  - apply readPredictionsFile_parse_error.
  - apply readPredictionsFile_read_error.
  - apply readPredictionsFile_returned.
Qed.

(** X21. The type guard looks at the first two columns only.  A row with
    an id and a model and nothing else is kept, its missing prediction
    and ground truth both read as the text 'undefined', so that it
    counts as a correct prediction. *)
Theorem validation_ignores_missing_columns (row : list JsValue) :
  validateWinePredictionRecord (mapRecord row)
  = validateWinePredictionRecord (mapRecord (firstn 2 row))
  /\ forall id modelName,
       row = [id; JsString modelName] ->
       typeof id = "number" \/ typeof id = "string" ->
       validateWinePredictionRecord (mapRecord row) = true
       /\ exists p,
            narrow (mapRecord row) = Some p
            /\ prediction p = "undefined"
            /\ actual_variety p = "undefined"
            /\ isCorrect p = true.
Proof.
  split.
  - rewrite !validateWinePredictionRecord_mapRecord.
    destruct row as [| a [| b rest]]; reflexivity.
  - intros id modelName -> Hid.
    assert (validateWinePredictionRecord (mapRecord [id; JsString modelName])
            = true) as Hvalid.
    { rewrite validateWinePredictionRecord_mapRecord. cbn.
      destruct Hid as [-> | ->]; reflexivity. }
    split; [exact Hvalid |].
    destruct (narrow_mapRecord _ Hvalid) as (p & Hp & Hpred & Hact).
    exists p. split; [exact Hp |]. cbn in Hpred, Hact.
    split; [exact Hpred |]. split; [exact Hact |].
    unfold isCorrect. now rewrite Hpred, Hact.
Qed.

Lemma filter_split_length {A} (f : A -> bool) (l : list A) :
  (length (List.filter f l)
   + length (List.filter (fun x => negb (f x)) l))%nat
  = length l.
Proof.
  induction l as [| a l IH]; [reflexivity |].
  simpl. destruct (f a); simpl; lia.
Qed.

(** X22. In the result of an accuracy calculation the total is the
    number of predictions, the correct ones are those whose label equals
    their ground truth, the correct and the mismatched predictions add
    up to the total, the model is that of
    the first prediction, and the examples, at most five, each show the
    winery, the predicted label and the actual label of a prediction of
    the input whose two labels differ. *)
Theorem calculateWineAccuracy_counts (ps : list WinePredictionRecord) :
  ps <> [] ->
  exists r,
    calculateWineAccuracy ps = Return r
    /\ totalPredictions r = length ps
    /\ correctPredictions r
       = length (List.filter
                   (fun p => String.eqb (prediction p) (actual_variety p)) ps)
    /\ (correctPredictions r
        + length (List.filter
                    (fun p =>
                       negb (String.eqb (prediction p) (actual_variety p)))
                    ps))%nat
       = totalPredictions r
    /\ (correctPredictions r + length (mismatches ps))%nat
       = totalPredictions r
    /\ Some (res_model r) = option_map model (head ps)
    /\ (length (incorrectExamples r) <= 5)%nat
    /\ forall ex,
         In ex (incorrectExamples r) ->
         predicted ex <> actual ex
         /\ exists p,
              In p ps
              /\ ex_winery ex = winery p
              /\ predicted ex = prediction p
              /\ actual ex = actual_variety p.
Proof.
  intros Hne.
  destruct (calculateWineAccuracy_nonempty ps Hne) as (first & Hhead & Hres).
  eexists. split; [exact Hres |].
  cbn [correctPredictions totalPredictions res_model incorrectExamples].
  split; [reflexivity |]. split; [reflexivity |].
  split; [apply (filter_split_length isCorrect) |].
  split; [| split; [| split]].
  - unfold countCorrect, mismatches. rewrite length_map.
    apply filter_split_length.
  - now rewrite Hhead.
  - rewrite length_firstn. lia.
  - intros ex Hex.
    assert (In ex (mismatches ps)) as Hin.
    { rewrite <- (firstn_skipn 5). apply in_or_app. now left. }
    unfold mismatches in Hin.
    apply in_map_iff in Hin as (p & <- & Hp).
    apply List.filter_In in Hp as [Hp Hwrong].
    split; [| exists p; now repeat split].
    unfold isCorrect in Hwrong. apply negb_true_iff in Hwrong.
    now apply String.eqb_neq in Hwrong.
Qed.

Lemma countCorrect_permutation (ps qs : list WinePredictionRecord) :
  Permutation ps qs -> countCorrect ps = countCorrect qs.
Proof.
  unfold countCorrect.
  induction 1 as [| p ps qs _ IH | p q ps | ps qs rs _ IH1 _ IH2]; simpl.
  - reflexivity.
  - destruct (isCorrect p); simpl; now rewrite IH.
  - destruct (isCorrect p), (isCorrect q); reflexivity.
  - now rewrite IH1.
Qed.

(** X23. The total, the number of correct predictions and the accuracy
    do not depend on the order of the predictions. *)
Theorem calculateWineAccuracy_order_free (ps qs : list WinePredictionRecord) :
  Permutation ps qs ->
  ps <> [] ->
  exists r r',
    calculateWineAccuracy ps = Return r
    /\ calculateWineAccuracy qs = Return r'
    /\ totalPredictions r = totalPredictions r'
    /\ correctPredictions r = correctPredictions r'
    /\ (accuracy r == accuracy r')%Q.
Proof.
  intros Hperm Hne.
  assert (qs <> []) as Hne'.
  { intros ->. apply Permutation_nil_r in Hperm. contradiction. }
  destruct (calculateWineAccuracy_nonempty ps Hne) as (first & _ & Hres).
  destruct (calculateWineAccuracy_nonempty qs Hne') as (first' & _ & Hres').
  eexists. eexists. split; [exact Hres |]. split; [exact Hres' |].
  cbn [totalPredictions correctPredictions accuracy].
  rewrite (countCorrect_permutation ps qs Hperm).
  rewrite (Permutation_length Hperm).
  split; [reflexivity |]. split; reflexivity.
Qed.



End AnalysisMore.


(** ** step2: the varieties and the prompt *)

Section VarietiesMore.
Import Step2.
Variable trim : string -> string.

Lemma existsb_eqb_In (x : string) (set : list string) :
  existsb (String.eqb x) set = true <-> In x set.
Proof.
  rewrite existsb_exists. split.
  - intros (y & Hy & Heq). apply String.eqb_eq in Heq. now subst.
  - intros Hin. exists x. split; [exact Hin | apply String.eqb_refl].
Qed.

Lemma setAdd_In (v x : string) (set : list string) :
  In v (setAdd x set) <-> v = x \/ In v set.
Proof.
  unfold setAdd. destruct (existsb (String.eqb x) set) eqn:Hx.
  - apply existsb_eqb_In in Hx. split; [now right |].
    intros [-> | Hin]; assumption.
  - rewrite in_app_iff. cbn. split.
    + intros [Hin | [<- | []]]; [now right | now left].
    + intros [-> | Hin]; [right; now left | now left].
Qed.

Lemma setAdd_NoDup (x : string) (set : list string) :
  List.NoDup set -> List.NoDup (setAdd x set).
Proof.
  intros Hset. unfold setAdd.
  destruct (existsb (String.eqb x) set) eqn:Hx; [exact Hset |].
  apply List.NoDup_app; [exact Hset | repeat constructor; intros [] |].
  intros y Hy [<- | []].
  apply existsb_eqb_In in Hy. congruence.
Qed.

Lemma varieties_loop (rows : list (gmap string string)) :
  forall set,
    List.NoDup set ->
    let st := fold_left (onVarietyEvent trim) (map VData rows) (set, None) in
    snd st = None
    /\ List.NoDup (fst st)
    /\ forall v,
         In v (fst st)
         <-> In v set
             \/ exists record raw,
                  In record rows /\ record !! "variety" = Some raw
                  /\ raw <> EmptyString /\ trim raw = v.
Proof.
  induction rows as [| record rows IH]; intros set Hset; cbv zeta.
  - cbn. split; [reflexivity |]. split; [exact Hset |].
    intros v. split; [now left |]. intros [Hin | (r & raw & [] & _)].
    exact Hin.
  - cbn [map fold_left onVarietyEvent fst snd].
    destruct (record !! "variety") as [raw |] eqn:Hraw.
    + destruct (String.eqb_spec raw EmptyString) as [Hempty | Hfull];
        cbn [negb].
      * destruct (IH set Hset) as (Hnone & Hnodup & Hmem).
        split; [exact Hnone |]. split; [exact Hnodup |].
        intros v. rewrite Hmem. split.
        -- intros [Hin | (r & raw' & Hr & Hrest)]; [now left |].
           right. exists r, raw'. split; [now right | exact Hrest].
        -- intros [Hin | (r & raw' & [<- | Hr] & Hlook & Hne & Htrim)];
             [now left | | right; now exists r, raw'].
           rewrite Hraw in Hlook. congruence.
      * destruct (IH (setAdd (trim raw) set) (setAdd_NoDup _ _ Hset))
          as (Hnone & Hnodup & Hmem).
        split; [exact Hnone |]. split; [exact Hnodup |].
        intros v. rewrite Hmem, setAdd_In. split.
        -- intros [[-> | Hin] | (r & raw' & Hr & Hrest)].
           ++ right. exists record, raw. split; [now left |]. now split.
           ++ now left.
           ++ right. exists r, raw'. split; [now right | exact Hrest].
        -- intros [Hin | (r & raw' & [<- | Hr] & Hlook & Hne & Htrim)].
           ++ left. now right.
           ++ rewrite Hraw in Hlook. injection Hlook as <-.
              left. now left.
           ++ right. now exists r, raw'.
    + destruct (IH set Hset) as (Hnone & Hnodup & Hmem).
      split; [exact Hnone |]. split; [exact Hnodup |].
      intros v. rewrite Hmem. split.
      * intros [Hin | (r & raw' & Hr & Hrest)]; [now left |].
        right. exists r, raw'. split; [now right | exact Hrest].
      * intros [Hin | (r & raw' & [<- | Hr] & Hlook & Hne & Htrim)];
          [now left | | right; now exists r, raw'].
        rewrite Hraw in Hlook. discriminate.
Qed.

Lemma varieties_settled_sticky (events : list VarietyEvent) :
  forall set r,
    snd (fold_left (onVarietyEvent trim) events (set, Some r)) = Some r.
Proof.
  induction events as [| ev events IH]; intros set r; [reflexivity |].
  cbn [fold_left]. destruct ev as [record | cause]; cbn [onVarietyEvent fst snd].
  - destruct (record !! "variety") as [raw |]; [| apply IH].
    destruct (negb (String.eqb raw EmptyString)); apply IH.
  - apply IH.
Qed.

(** X25. The varieties read from a dataset are the trimmed, non-empty
    variety fields of its rows, each listed once; an error of the parse
    stream fails the read with that error, whatever rows came before or
    come after. *)
Theorem getUniqueVarieties_outcomes (rows : list (gmap string string)) :
  (exists varieties,
      getUniqueVarieties trim (map VData rows) = VarietiesRead varieties
      /\ List.NoDup varieties
      /\ forall v,
           In v varieties
           <-> exists record raw,
                 In record rows /\ record !! "variety" = Some raw
                 /\ raw <> EmptyString /\ trim raw = v)
  /\ forall cause later,
       getUniqueVarieties trim (map VData rows ++ VError cause :: later)
       = VarietiesFailed cause.
Proof.
  destruct (varieties_loop rows [] (List.NoDup_nil _)) as (Hnone & Hnodup & Hmem).
  cbv zeta in Hnone, Hnodup, Hmem. split.
  - unfold getUniqueVarieties. cbv zeta. rewrite Hnone.
    eexists. split; [reflexivity |]. split; [exact Hnodup |].
    intros v. rewrite Hmem. split; [intros [[] | Hex]; exact Hex | now right].
  - intros cause later. unfold getUniqueVarieties. cbv zeta.
    rewrite fold_left_app.
    destruct (fold_left (onVarietyEvent trim) (map VData rows) ([], None))
      as [set settledNow].
    cbn [snd] in Hnone. subst settledNow.
    cbn [fold_left onVarietyEvent fst snd].
    now rewrite varieties_settled_sticky.
Qed.

End VarietiesMore.

Section PromptMore.
Context `{JsHost}.
Import Step2.

(** The prompt of a record does not depend on the record's variety:
    two records that differ in nothing else get the same prompt, so the
    ground truth is not handed to the model as a field of its own. *)
Theorem generatePrompt_ignores_variety (record other : WineRecord)
    (varieties : list string) :
  winery record = winery other ->
  province record = province other ->
  country record = country other ->
  region_1 record = region_1 other ->
  description record = description other ->
  taster_name record = taster_name other ->
  points record = points other ->
  price record = price other ->
  generatePrompt record varieties = generatePrompt other varieties.
Proof.
  intros Hw Hp Hc Hr Hd Ht Hpo Hpr. unfold generatePrompt.
  now rewrite Hw, Hp, Hc, Hr, Hd, Ht, Hpo, Hpr.
Qed.

End PromptMore.

Lemma calculateWineAccuracy_counts_witness :
  Examples.sevenPredictions <> []
  /\ exists r,
       Step3.calculateWineAccuracy Examples.sevenPredictions = Return r
       /\ (Step3.correctPredictions r + 6)%nat = Step3.totalPredictions r
       /\ (length (Step3.incorrectExamples r) <= 5)%nat.
Proof.
  split; [discriminate |].
  destruct (calculateWineAccuracy_counts (H := exampleHost)
              Examples.sevenPredictions)
    as (r & Hr & _ & _ & Hsum & _ & _ & Hcap & _); [discriminate |].
  exists r. split; [exact Hr |]. split; [exact Hsum | exact Hcap].
Defined.

Lemma calculateWineAccuracy_order_free_witness :
  exists r r',
    Step3.calculateWineAccuracy Examples.threePredictions = Return r
    /\ Step3.calculateWineAccuracy (rev Examples.threePredictions) = Return r'
    /\ (Step3.accuracy r == Step3.accuracy r')%Q.
Proof.
  destruct (calculateWineAccuracy_order_free (H := exampleHost)
              Examples.threePredictions (rev Examples.threePredictions))
    as (r & r' & Hr & Hr' & _ & _ & Hacc).
  - apply Permutation_rev.
  - discriminate.
  - exists r, r'. auto.
Defined.
